(** * Molecular classification front end: input validation and response transform

    A shallow embedding of the two logic-bearing pieces of the React client:

    - [MoleculeInput.validateSMILES], the syntactic check run on the text
      field before a prediction is requested;
    - [App.handlePrediction], which awaits the backend's answer, reshapes
      it into the record the result view consumes and updates the component
      state; together with the one line of [PredictionResults] that renders
      the stage-1 label.

    JavaScript strings are sequences of UTF-16 code units, JSON numbers are
    binary64 floats, and property reads on [undefined] throw: the embedding
    keeps all three. *)

From Stdlib Require Import List NArith ZArith Bool String Ascii Lia Setoid Permutation.
From Stdlib Require Import PrimFloat FloatOps FloatAxioms SpecFloat DecimalString.
Import ListNotations.

Set Implicit Arguments.
Set Warnings "-register-all,-inexact-float".

(* ================================================================== *)
(** ** The JavaScript values and built-ins the two components rely on   *)
(* ================================================================== *)

Module JS.

(** A string is a list of UTF-16 code units. *)
Definition code_unit := N.
Definition jsstring := list code_unit.

(** Source literals are ASCII; [js] reads one off a Rocq string. *)
Definition js (s : string) : jsstring :=
  map N_of_ascii (list_ascii_of_string s).

Definition string_eqb (a b : jsstring) : bool :=
  if list_eq_dec N.eq_dec a b then true else false.

(** [WhiteSpace] and [LineTerminator] of ECMA-262, the code units that
    [String.prototype.trim] strips: TAB, LF, VT, FF, CR, SP, NBSP,
    U+1680, U+2000..U+200A, LS, PS, U+202F, U+205F, U+3000 and the BOM. *)
Definition is_white_space (c : code_unit) : bool :=
  ((9 <=? c) && (c <=? 13) || (c =? 32) || (c =? 160) || (c =? 5760)
   || (8192 <=? c) && (c <=? 8202) || (c =? 8232) || (c =? 8233)
   || (c =? 8239) || (c =? 8287) || (c =? 12288) || (c =? 65279))%N.

Fixpoint trimStart (s : jsstring) : jsstring :=
  match s with
  | [] => []
  | c :: rest => if is_white_space c then trimStart rest else s
  end.

Definition trimEnd (s : jsstring) : jsstring := rev (trimStart (rev s)).

Definition trim (s : jsstring) : jsstring := trimEnd (trimStart s).

(** A string is falsy exactly when it is empty. *)
Definition string_truthy (s : jsstring) : bool :=
  match s with [] => false | _ :: _ => true end.

(** [s.charAt(0)] and [s.slice(1)]. *)
Definition charAt0 (s : jsstring) : jsstring :=
  match s with [] => [] | c :: _ => [c] end.

Definition slice1 (s : jsstring) : jsstring := tl s.

(** *** Values

    What [JSON.parse] can produce, plus [undefined] (the result of reading
    a property that is not there).  An object is given by its own
    properties in the order [Object.entries] enumerates them. *)
Inductive value : Type :=
| VUndefined
| VNull
| VBool (b : bool)
| VNum (x : float)
| VStr (s : jsstring)
| VArr (elements : list value)
| VObj (properties : list (jsstring * value)).

(** *** Completions: an expression yields a value or throws. *)
Inductive exn : Type :=
| TypeError                   (* raised by the engine itself *)
| SyntaxError                 (* [response.json()] on a body that is not JSON *)
| Error (message : jsstring). (* [new Error(...)], with the message it holds *)

Inductive completion (A : Type) : Type :=
| Normal (a : A)
| Throw (e : exn).
Arguments Throw {A} e.

Definition bind {A B} (c : completion A) (k : A -> completion B) : completion B :=
  match c with
  | Normal a => k a
  | Throw e => Throw e
  end.

Declare Scope js_scope.
Delimit Scope js_scope with js.
Notation "x <- c ;; k" := (bind c (fun x => k))
  (at level 61, c at next level, right associativity) : js_scope.
Local Open Scope js_scope.

(** [Array.prototype.map] with a callback that may throw: left to right,
    stopping at the first exception. *)
Fixpoint Array_map {A B} (f : A -> completion B) (l : list A) : completion (list B) :=
  match l with
  | [] => Normal []
  | a :: rest =>
      b <- f a ;;
      bs <- Array_map f rest ;;
      Normal (b :: bs)
  end.

(** *** Property reads *)
Fixpoint own_property (p : jsstring) (props : list (jsstring * value)) : value :=
  match props with
  | [] => VUndefined
  | (k, v) :: rest => if string_eqb k p then v else own_property p rest
  end.

Definition nullish (v : value) : bool :=
  match v with
  | VUndefined | VNull => true
  | _ => false
  end.

(** What a read of [p] finds on a value that is neither [undefined] nor
    [null], for the property names this program reads (none of them an
    index, [length], or a member of a built-in prototype): the own
    property of an object, [undefined] on anything else. *)
Definition member (v : value) (p : jsstring) : value :=
  match v with
  | VObj props => own_property p props
  | _ => VUndefined
  end.

(** [v.p]: a [TypeError] on [undefined] and [null]. *)
Definition get (v : value) (p : jsstring) : completion value :=
  if nullish v then Throw TypeError else Normal (member v p).

Definition index_key (i : nat) : jsstring :=
  js (NilZero.string_of_uint (Nat.to_uint i)).

(** [Object.entries(v)]. *)
Definition Object_entries (v : value) : completion (list (jsstring * value)) :=
  match v with
  | VUndefined | VNull => Throw TypeError
  | VObj props => Normal props
  | VArr elements =>
      Normal (combine (map index_key (seq 0 (List.length elements))) elements)
  | VStr s =>
      Normal (combine (map index_key (seq 0 (List.length s)))
                      (map (fun c => VStr [c]) s))
  | VBool _ | VNum _ => Normal []
  end.

(** [ToBoolean]. *)
Definition truthy (v : value) : bool :=
  match v with
  | VUndefined | VNull => false
  | VBool b => b
  | VNum x => negb (PrimFloat.eqb x 0 || PrimFloat.is_nan x)
  | VStr s => string_truthy s
  | VArr _ | VObj _ => true
  end.

(** [a || b] on values. *)
Definition or_else (a b : value) : value := if truthy a then a else b.

(** *** What is left to the engine

    Four built-ins are tables or parsers of the host, not code of this
    program: the upper-case mapping of a code unit beyond ASCII (it may
    yield several units), the number a string denotes, the string an
    array converts to (which may throw), and the string a number converts
    to. *)
Record Engine : Type := {
  upper_beyond_ascii : code_unit -> jsstring;
  StringToNumber : jsstring -> float;
  Array_toString : list value -> completion jsstring;
  Number_toString : float -> jsstring
}.

Section WithEngine.
Variable E : Engine.

(** [s.toUpperCase()], code unit by code unit: exact on the strings of
    at most one unit that [charAt] returns. *)
Definition upper_unit (c : code_unit) : jsstring :=
  if ((97 <=? c) && (c <=? 122))%N then [(c - 32)%N]
  else if (c <? 128)%N then [c]
  else upper_beyond_ascii E c.

Definition toUpperCase (s : jsstring) : jsstring := flat_map upper_unit s.

(** [ToNumber].  A plain object converts through [valueOf] (which gives
    the object back) and then [toString]; an own, hence non-callable,
    [toString] property leaves no method to call. *)
Definition ToNumber (v : value) : completion float :=
  match v with
  | VUndefined => Normal nan
  | VNull => Normal 0%float
  | VBool b => Normal (if b then 1%float else 0%float)
  | VNum x => Normal x
  | VStr s => Normal (StringToNumber E s)
  | VArr elements =>
      s <- Array_toString E elements ;;
      Normal (StringToNumber E s)
  | VObj props =>
      if existsb (fun kv => string_eqb (fst kv) (js "toString")) props
      then Throw TypeError
      else Normal nan
  end.

(** [ToString], as a template literal and [new Error(...)] apply it.  A
    plain object converts through [toString] first: an own, hence
    non-callable, [toString] property is skipped, [valueOf] gives no
    primitive, and the conversion throws. *)
Definition ToString (v : value) : completion jsstring :=
  match v with
  | VUndefined => Normal (js "undefined")
  | VNull => Normal (js "null")
  | VBool b => Normal (if b then js "true" else js "false")
  | VNum x => Normal (Number_toString E x)
  | VStr s => Normal s
  | VArr elements => Array_toString E elements
  | VObj props =>
      if existsb (fun kv => string_eqb (fst kv) (js "toString")) props
      then Throw TypeError
      else Normal (js "[object Object]")
  end.

(** [v > y] for a number [y]: false whenever [v] converts to NaN. *)
Definition gt (v : value) (y : float) : completion bool :=
  x <- ToNumber v ;;
  Normal (y <? x)%float.

End WithEngine.

End JS.

(* ================================================================== *)
(** ** MoleculeInput: the validator                                     *)
(* ================================================================== *)

Module MoleculeInput.
Import JS.

(** The three messages and the empty string that means "no error". *)
Definition EmptyInput : jsstring := js "SMILES string cannot be empty".
Definition InvalidCharacters : jsstring := js "SMILES contains invalid characters".
Definition UnbalancedBrackets : jsstring := js "Unbalanced brackets in SMILES".
Definition Valid : jsstring := js "".

(** The positive part of the class [[^A-Za-z0-9\[\]()=#+\-@\/\\\.]]. *)
Definition allowed (c : code_unit) : bool :=
  ((65 <=? c) && (c <=? 90)        (* A-Z *)
   || (97 <=? c) && (c <=? 122)    (* a-z *)
   || (48 <=? c) && (c <=? 57)     (* 0-9 *)
   || (c =? 91) || (c =? 93)       (* [ ] *)
   || (c =? 40) || (c =? 41)       (* ( ) *)
   || (c =? 61) || (c =? 35)       (* = # *)
   || (c =? 43) || (c =? 45)       (* + - *)
   || (c =? 64) || (c =? 47)       (* @ / *)
   || (c =? 92) || (c =? 46))%N.   (* \ . *)

(** [invalidChars.test(s)]: some code unit matches the negated class. *)
Definition invalidChars_test (s : jsstring) : bool :=
  existsb (fun c => negb (allowed c)) s.

(** [s.match(/[\[\]()]/g) || []]: the bracket code units, in order. *)
Definition is_bracket (c : code_unit) : bool :=
  ((c =? 91) || (c =? 93) || (c =? 40) || (c =? 41))%N.

Definition match_brackets (s : jsstring) : list code_unit :=
  filter is_bracket s.

(** One turn of the [for] loop over the matches; the state is
    [(squareCount, roundCount)]. *)
Definition count_step (st : Z * Z) (bracket : code_unit) : Z * Z :=
  let '(squareCount, roundCount) := st in
  if (bracket =? 91)%N then (squareCount + 1, roundCount)%Z
  else if (bracket =? 93)%N then (squareCount - 1, roundCount)%Z
  else if (bracket =? 40)%N then (squareCount, roundCount + 1)%Z
  else if (bracket =? 41)%N then (squareCount, roundCount - 1)%Z
  else st.

Definition count_brackets (brackets : list code_unit) : Z * Z :=
  fold_left count_step brackets (0, 0)%Z.

Definition validateSMILES (smilesString : jsstring) : jsstring :=
  if negb (string_truthy (trim smilesString)) then EmptyInput
  else if invalidChars_test smilesString then InvalidCharacters
  else
    let '(squareCount, roundCount) := count_brackets (match_brackets smilesString) in
    if negb (squareCount =? 0)%Z || negb (roundCount =? 0)%Z
    then UnbalancedBrackets
    else Valid.

End MoleculeInput.


(* ================================================================== *)
(** ** App: the prediction request and the response transform           *)
(* ================================================================== *)

(** One element of [functionalGroups]. *)
Module Group.
Record t : Type := {
  name : JS.jsstring;
  probability : JS.value;
  detected : bool;
  confidence : JS.value
}.
End Group.

Module App.
Import JS.
Local Open Scope js_scope.

(** The shape of [transformedPrediction], field by field as the object
    literal lists them. *)
Record Prediction : Type := {
  smiles : value;
  hasGroups : value;
  confidence : value;
  level1Prediction : value;
  functionalGroups : list Group.t;
  detectedGroups : value;
  totalDetected : value;
  modelUsed : value;
  processingTime : value;
  inDataset : value;
  warnings : value;
  timestamp : value;
  featureCount : value
}.

(** [o.p] where [o] is itself the outcome of a read. *)
Definition read (o : completion value) (p : string) : completion value :=
  v <- o ;; get v (js p).
Notation "o .> p" := (read o p) (at level 40, left associativity).

Section Handler.
Variable E : Engine.

(** The callback given to [map]. *)
Definition groupRecord (entry : jsstring * value) : completion Group.t :=
  let '(name, probability) := entry in
  let name' := toUpperCase E (charAt0 name) ++ slice1 name in
  detected <- gt E probability 0.5 ;;
  Normal {| Group.name := name';
            Group.probability := probability;
            Group.detected := detected;
            Group.confidence := probability |}.

(** The object literal bound to [transformedPrediction]; its property
    initialisers run top to bottom and the first one that throws ends the
    evaluation. *)
Definition transformedPrediction (result : value) : completion Prediction :=
  smiles <- Normal result .> "smiles" ;;
  hasGroups <- Normal result .> "level1" .> "has_functional_groups" ;;
  confidence <- Normal result .> "level1" .> "confidence" ;;
  level1Prediction <- Normal result .> "level1" .> "prediction" ;;
  groups <- Normal result .> "level2" .> "functional_groups" ;;
  entries <- Object_entries groups ;;
  functionalGroups <- Array_map groupRecord entries ;;
  detectedGroups <- Normal result .> "level2" .> "detected_groups" ;;
  totalDetected <- Normal result .> "level2" .> "total_detected" ;;
  modelUsed <- Normal result .> "metadata" .> "algorithm" ;;
  processingTime <- Normal result .> "processing_time" ;;
  inDataset <- Normal result .> "metadata" .> "in_dataset" ;;
  warnings <- Normal result .> "warnings" ;;
  timestamp <- Normal result .> "timestamp" ;;
  featureCount <- Normal result .> "metadata" .> "feature_count" ;;
  Normal {| smiles := smiles;
            hasGroups := hasGroups;
            confidence := confidence;
            level1Prediction := level1Prediction;
            functionalGroups := functionalGroups;
            detectedGroups := detectedGroups;
            totalDetected := totalDetected;
            modelUsed := modelUsed;
            processingTime := processingTime;
            inDataset := inDataset;
            warnings := or_else warnings (VArr []);
            timestamp := timestamp;
            featureCount := featureCount |}.

(** *** The surroundings of one call *)

(** How [fetch] ends: rejected, or resolved with a response of which the
    handler uses [json()] alone (it never looks at the HTTP status).
    [json()] yields the parsed body or rejects. *)
Inductive FetchOutcome : Type :=
| Rejected (e : exn)
| Responded (ok : bool) (json : completion value).

(** The two readings of [Date.now()] and the backend's answer to a
    request for a given notation string. *)
Record World : Type := {
  startTime : float;
  endTime : float;
  fetch_predict : jsstring -> FetchOutcome
}.

(** The [try] block up to and including the transform: everything in it
    that can throw. *)
Definition requestPrediction (w : World) (smiles : jsstring) : completion Prediction :=
  let startTime := startTime w in
  match fetch_predict w smiles with
  | Rejected e => Throw e
  | Responded _ (Throw e) => Throw e
  | Responded _ (Normal result) =>
      success <- get result (js "success") ;;
      if negb (truthy success) then
        message <- get result (js "message") ;;
        text <- ToString E (or_else message (VStr (js "Prediction failed"))) ;;
        Throw (Error text)
      else
        let processingTime := ((endTime w - startTime) / 1000)%float in
        transformedPrediction result
  end.

(** *** Component state and notifications *)

Record SystemStatus : Type := {
  backendConnected : bool;
  modelsLoaded : bool;
  datasetLoaded : bool
}.

Inductive Toast : Type :=
| error_backend_not_connected
| error_models_not_loaded
| error_prediction_failed (error : exn)
| success_found_groups (totalDetected : jsstring)
| success_no_groups.

(** [predictionData] is [null] ([None]) or a transformed prediction;
    [toasts] and [console] record what was shown and logged, oldest
    first.  [success_found_groups] carries what the template literal made
    of [totalDetected]. *)
Record State : Type := {
  predictionData : option Prediction;
  isLoading : bool;
  systemStatus : SystemStatus;
  totalPredictions : float;
  toasts : list Toast;
  console : list exn
}.

Definition setPredictionData (d : option Prediction) (st : State) : State :=
  {| predictionData := d; isLoading := isLoading st;
     systemStatus := systemStatus st; totalPredictions := totalPredictions st;
     toasts := toasts st; console := console st |}.

Definition setIsLoading (b : bool) (st : State) : State :=
  {| predictionData := predictionData st; isLoading := b;
     systemStatus := systemStatus st; totalPredictions := totalPredictions st;
     toasts := toasts st; console := console st |}.

(** [setModelStats(prev => ({...prev, totalPredictions: prev.totalPredictions + 1}))] *)
Definition countPrediction (st : State) : State :=
  {| predictionData := predictionData st; isLoading := isLoading st;
     systemStatus := systemStatus st;
     totalPredictions := (totalPredictions st + 1)%float;
     toasts := toasts st; console := console st |}.

Definition toast (t : Toast) (st : State) : State :=
  {| predictionData := predictionData st; isLoading := isLoading st;
     systemStatus := systemStatus st; totalPredictions := totalPredictions st;
     toasts := toasts st ++ [t]; console := console st |}.

Definition console_error (e : exn) (st : State) : State :=
  {| predictionData := predictionData st; isLoading := isLoading st;
     systemStatus := systemStatus st; totalPredictions := totalPredictions st;
     toasts := toasts st; console := console st ++ [e] |}.

(** The [catch] block. *)
Definition catch (error : exn) (st : State) : State :=
  let st := console_error error st in
  let st := toast (error_prediction_failed error) st in
  setPredictionData None st.

(** The two setters and the success toast sit inside the [try] block too:
    when the template literal of the toast cannot convert [totalDetected],
    the [catch] block runs after them. *)
Definition handlePrediction (w : World) (smiles : jsstring) (st : State) : State :=
  if negb (backendConnected (systemStatus st)) then
    toast error_backend_not_connected st
  else if negb (modelsLoaded (systemStatus st)) then
    toast error_models_not_loaded st
  else
    let st := setIsLoading true st in
    let st :=
      match requestPrediction w smiles with
      | Normal prediction =>
          let st := setPredictionData (Some prediction) st in
          let st := countPrediction st in
          if truthy (hasGroups prediction) then
            match ToString E (totalDetected prediction) with
            | Normal text => toast (success_found_groups text) st
            | Throw error => catch error st
            end
          else toast success_no_groups st
      | Throw error => catch error st
      end in
    setIsLoading false st.

End Handler.

End App.

(* ================================================================== *)
(** ** PredictionResults: the stage-1 label as rendered                 *)
(* ================================================================== *)

Module PredictionResults.
Import JS App.

(** [{level1Prediction || (hasGroups ? 'HAS_GROUPS' : 'NO_GROUPS')}] *)
Definition binaryPrediction (data : Prediction) : value :=
  or_else (level1Prediction data)
          (if truthy (hasGroups data)
           then VStr (js "HAS_GROUPS")
           else VStr (js "NO_GROUPS")).

End PredictionResults.

(* ================================================================== *)
(** ** Vocabulary of the statements, and the inputs of the examples     *)
(* ================================================================== *)

Module ValidatorVocabulary.
Import JS MoleculeInput.

Definition only_white_space (s : jsstring) : Prop :=
  forall c, In c s -> is_white_space c = true.

Definition no_white_space (s : jsstring) : Prop :=
  forall c, In c s -> is_white_space c = false.

Definition has_disallowed (s : jsstring) : Prop :=
  exists c, In c s /\ allowed c = false.

Definition occurrences (c : code_unit) (s : jsstring) : Z :=
  Z.of_nat (count_occ N.eq_dec s c).
Arguments occurrences c%_N s.

(** As many ['('] as [')'] and as many ['['] as [']'], wherever they are. *)
Definition equal_counts (s : jsstring) : Prop :=
  occurrences 40 s = occurrences 41 s /\ occurrences 91 s = occurrences 93 s.

(** What one code unit adds to the number of occurrences of [d]. *)
Definition hit (c d : code_unit) : Z := if (c =? d)%N then 1%Z else 0%Z.
Arguments hit (c d)%_N.

End ValidatorVocabulary.

Module AppVocabulary.
Import JS App.

(** The value found under [p], for a holder known not to be nullish. *)
Definition field (v : value) (p : string) : value := member v (js p).

(** A name with its first code unit upper-cased and the rest untouched. *)
Definition capitalized (E : Engine) (name : jsstring) : jsstring :=
  match name with
  | [] => []
  | c :: rest => upper_unit E c ++ rest
  end.

(** A stage-2 mapping from group names to numbers, as a JSON object. *)
Definition number_map (groups : list (jsstring * float)) : value :=
  VObj (map (fun kx => (fst kx, VNum (snd kx))) groups).

(** The record expected for one entry of such a mapping. *)
Definition group_of (E : Engine) (entry : jsstring * float) : Group.t :=
  {| Group.name := capitalized E (fst entry);
     Group.probability := VNum (snd entry);
     Group.detected := (0.5 <? snd entry)%float;
     Group.confidence := VNum (snd entry) |}.

(** A record agreeing with an entry of the mapping, whatever the entry's
    value is. *)
Definition record_of_entry (E : Engine) (entry : jsstring * value) (g : Group.t) : Prop :=
  Group.name g = capitalized E (fst entry) /\
  Group.probability g = snd entry /\
  Group.confidence g = snd entry /\
  gt E (snd entry) 0.5 = Normal (Group.detected g).

(** A response with its three nested objects in place and a mapping of
    numbers under [level2.functional_groups]. *)
Definition well_shaped (result : value) (groups : list (jsstring * float)) : Prop :=
  nullish result = false /\
  nullish (field result "level1") = false /\
  nullish (field result "level2") = false /\
  nullish (field result "metadata") = false /\
  field (field result "level2") "functional_groups" = number_map groups.


(** How many records of a prediction are flagged as detected. *)
Definition detected_count (p : Prediction) : nat :=
  List.length (filter Group.detected (functionalGroups p)).

(** The record the transform builds once every read has gone through. *)
Definition built (result : value) (functionalGroups : list Group.t) : Prediction :=
  let level1 := field result "level1" in
  let level2 := field result "level2" in
  let metadata := field result "metadata" in
  {| smiles := field result "smiles";
     hasGroups := field level1 "has_functional_groups";
     confidence := field level1 "confidence";
     level1Prediction := field level1 "prediction";
     functionalGroups := functionalGroups;
     detectedGroups := field level2 "detected_groups";
     totalDetected := field level2 "total_detected";
     modelUsed := field metadata "algorithm";
     processingTime := field result "processing_time";
     inDataset := field metadata "in_dataset";
     warnings := or_else (field result "warnings") (VArr []);
     timestamp := field result "timestamp";
     featureCount := field metadata "feature_count" |}.

(** The backend is reachable and its models are loaded, so the handler goes
    on to the request. *)
Definition ready (st : State) : Prop :=
  backendConnected (systemStatus st) = true /\
  modelsLoaded (systemStatus st) = true.


End AppVocabulary.

Module Examples.
Import JS App AppVocabulary.

Definition level1_example : value :=
  VObj [ (js "has_functional_groups", VBool true);
         (js "confidence", VNum 0.95);
         (js "prediction", VStr (js "HAS_GROUPS")) ].

Definition level1_without_label : value :=
  VObj [ (js "has_functional_groups", VBool true);
         (js "confidence", VNum 0.95) ].

Definition groups_example : list (jsstring * float) :=
  [ (js "alcohol", 0.9%float); (js "amine", 0.3%float) ].

Definition level2_example (total_detected : float) : value :=
  VObj [ (js "functional_groups", number_map groups_example);
         (js "detected_groups", VArr [VStr (js "alcohol")]);
         (js "total_detected", VNum total_detected) ].


Definition response_of (level1 level2 : value) : value :=
  VObj [ (js "success", VBool true);
         (js "smiles", VStr (js "CCO"));
         (js "level1", level1);
         (js "level2", level2);
         (js "metadata",
           VObj [ (js "algorithm", VStr (js "random_forest"));
                  (js "in_dataset", VBool true);
                  (js "feature_count", VNum 64) ]);
         (js "processing_time", VNum 0.125);
         (js "timestamp", VStr (js "2024-05-01T10:00:00")) ].

Definition response_example : value :=
  response_of level1_example (level2_example 1).

Definition response_without_label : value :=
  response_of level1_without_label (level2_example 1).


Definition response_miscounted : value :=
  response_of level1_example (level2_example 5).

(** The count of detected groups sent as an object with a [toString]
    entry, which no conversion to a string survives. *)
Definition response_unconvertible : value :=
  response_of level1_example
    (VObj [ (js "functional_groups", number_map groups_example);
            (js "detected_groups", VArr [VStr (js "alcohol")]);
            (js "total_detected", VObj [(js "toString", VNum 1)]) ]).



(** The backend answers every request with the same body. *)
Definition world_answering (t0 t1 : float) (ok : bool) (body : value) : World :=
  {| startTime := t0; endTime := t1;
     fetch_predict := fun _ => Responded ok (Normal body) |}.

Definition world_offline : World :=
  {| startTime := 0; endTime := 30;
     fetch_predict := fun _ => Rejected TypeError |}.

(** A prediction on display, the backend up and its models loaded. *)
Definition shown : Prediction :=
  {| smiles := VStr (js "CN"); hasGroups := VBool false; confidence := VNum 0.75;
     level1Prediction := VStr (js "NO_GROUPS"); functionalGroups := [];
     detectedGroups := VArr []; totalDetected := VNum 0;
     modelUsed := VStr (js "random_forest"); processingTime := VNum 0.25;
     inDataset := VBool false; warnings := VArr [];
     timestamp := VStr (js "2024-05-01T09:59:00"); featureCount := VNum 64 |}.

Definition state_showing : State :=
  {| predictionData := Some shown; isLoading := false;
     systemStatus := {| backendConnected := true; modelsLoaded := true;
                        datasetLoaded := true |};
     totalPredictions := 1; toasts := []; console := [] |}.

End Examples.

(* ================================================================== *)
(** ** The rest of the two components and of the result view            *)
(* ================================================================== *)

(** What [react-hot-toast] is asked to show, message included. *)
Module HotToast.
Inductive t : Type :=
| error (message : JS.jsstring)
| success (message : JS.jsstring).
End HotToast.

(** One entry of [exampleMolecules]. *)
Module Molecule.
Record t : Type := {
  name : JS.jsstring;
  smiles : JS.jsstring;
  description : JS.jsstring;
  groups : list JS.jsstring
}.
End Molecule.

(** The three pieces of state of [MoleculeInput]. *)
Module Form.
Record t : Type := {
  smiles : JS.jsstring;
  selectedExample : option Molecule.t;
  inputError : JS.jsstring
}.
End Form.

Module MoleculeInputForm.
Import JS MoleculeInput App.

Definition exampleMolecules : list Molecule.t :=
  [
    {| Molecule.name := js "Ethanol";
       Molecule.smiles := js "CCO";
       Molecule.description := js "Simple alcohol - contains OH group";
       Molecule.groups := [js "alcohol"] |};
    {| Molecule.name := js "Acetone";
       Molecule.smiles := js "CC(=O)C";
       Molecule.description := js "Ketone compound - contains C=O group";
       Molecule.groups := [js "carbonyl"] |};
    {| Molecule.name := js "Methylamine";
       Molecule.smiles := js "CN";
       Molecule.description := js "Primary amine - contains NH2 group";
       Molecule.groups := [js "amine"] |};
    {| Molecule.name := js "Acetamide";
       Molecule.smiles := js "CC(=O)N";
       Molecule.description := js "Simple amide - contains CONH2 group";
       Molecule.groups := [js "amide"; js "carbonyl"] |};
    {| Molecule.name := js "Ethene";
       Molecule.smiles := js "C=C";
       Molecule.description := js "Simple alkene - contains C=C double bond";
       Molecule.groups := [js "alkene"] |};
    {| Molecule.name := js "Acetylene";
       Molecule.smiles := js "C#C";
       Molecule.description := js "Simple alkyne - contains C" ++ [8801%N] ++ js "C triple bond";
       Molecule.groups := [js "alkyne"] |};
    {| Molecule.name := js "Diethyl ether";
       Molecule.smiles := js "CCOC";
       Molecule.description := js "Simple ether - contains C-O-C linkage";
       Molecule.groups := [js "ether"] |};
    {| Molecule.name := js "Fluoromethane";
       Molecule.smiles := js "CF";
       Molecule.description := js "Fluorinated compound - contains C-F bond";
       Molecule.groups := [js "fluorinated"] |};
    {| Molecule.name := js "Acetonitrile";
       Molecule.smiles := js "CC#N";
       Molecule.description := js "Nitrile compound - contains C" ++ [8801%N] ++ js "N group";
       Molecule.groups := [js "nitrile"] |};
    {| Molecule.name := js "Water";
       Molecule.smiles := js "H2O";
       Molecule.description := js "Water molecule - inorganic compound";
       Molecule.groups := [] |};
    {| Molecule.name := js "Nitric Acid";
       Molecule.smiles := js "HNO3";
       Molecule.description := js "Strong acid - contains nitro group";
       Molecule.groups := [] |};
    {| Molecule.name := js "Methanol";
       Molecule.smiles := js "CH3OH";
       Molecule.description := js "Simplest alcohol - from molecular formula";
       Molecule.groups := [js "alcohol"] |};
    {| Molecule.name := js "Acetic Acid";
       Molecule.smiles := js "C2H4O2";
       Molecule.description := js "Carboxylic acid - from molecular formula";
       Molecule.groups := [js "carbonyl"] |};
    {| Molecule.name := js "Ammonia";
       Molecule.smiles := js "NH3";
       Molecule.description := js "Simple nitrogen compound";
       Molecule.groups := [] |};
    {| Molecule.name := js "Carbon Dioxide";
       Molecule.smiles := js "CO2";
       Molecule.description := js "Greenhouse gas - inorganic";
       Molecule.groups := [] |};
    {| Molecule.name := js "Glucose";
       Molecule.smiles := js "C([C@@H]1[C@H]([C@@H]([C@H]([C@H](O1)O)O)O)O)O";
       Molecule.description := js "Complex sugar - multiple OH groups";
       Molecule.groups := [js "alcohol"] |};
    {| Molecule.name := js "Caffeine";
       Molecule.smiles := js "CN1C=NC2=C1C(=O)N(C(=O)N2C)C";
       Molecule.description := js "Complex alkaloid - multiple functional groups";
       Molecule.groups := [js "carbonyl"; js "amine"] |};
    {| Molecule.name := js "Aspirin";
       Molecule.smiles := js "CC(=O)OC1=CC=CC=C1C(=O)O";
       Molecule.description := js "Pain reliever - ester and carboxylic acid";
       Molecule.groups := [js "carbonyl"; js "alcohol"] |}
  ].

(** The state the three [useState] calls start from. *)
Definition initial : Form.t :=
  {| Form.smiles := js ""; Form.selectedExample := None; Form.inputError := js "" |}.

Definition handleInputChange (value : jsstring) (f : Form.t) : Form.t :=
  {| Form.smiles := value;
     Form.selectedExample := Form.selectedExample f;
     Form.inputError :=
       if string_truthy (trim value) then validateSMILES value else js "" |}.

(** What a submission does besides [preventDefault]: the toasts it shows
    and the arguments it calls [onPredict] with, in order. *)
Record Submission : Type := {
  shown : list HotToast.t;
  onPredict : list jsstring
}.

Definition handleSubmit (systemStatus : SystemStatus) (f : Form.t) : Submission :=
  let smiles := Form.smiles f in
  if negb (backendConnected systemStatus) then
    {| shown := [HotToast.error
                   (10060%N :: js " Backend not connected. Please start the Flask server.")];
       onPredict := [] |}
  else if negb (modelsLoaded systemStatus) then
    {| shown := [HotToast.error
                   (10060%N :: js " ML models not loaded. Please check the backend.")];
       onPredict := [] |}
  else if negb (string_truthy (trim smiles)) then
    {| shown := [HotToast.error (js "Please enter a SMILES string")];
       onPredict := [] |}
  else
    let error := validateSMILES smiles in
    if string_truthy error then
      {| shown := [HotToast.error (js "Invalid SMILES: " ++ error)];
         onPredict := [] |}
    else
      {| shown := [HotToast.success ([55357; 56620]%N ++ js " Analyzing molecule...")];
         onPredict := [trim smiles] |}.

Definition handleExampleClick (example : Molecule.t) (f : Form.t)
  : Form.t * list HotToast.t :=
  ({| Form.smiles := Molecule.smiles example;
      Form.selectedExample := Some example;
      Form.inputError := js "" |},
   [HotToast.success ([55357; 56523]%N ++ js " Loaded " ++ Molecule.name example)]).

Definition clearInput (f : Form.t) : Form.t :=
  {| Form.smiles := js ""; Form.selectedExample := None; Form.inputError := js "" |}.

Definition getSystemStatusText (systemStatus : SystemStatus) : jsstring :=
  if negb (backendConnected systemStatus) then js "Backend Disconnected"
  else if negb (modelsLoaded systemStatus) then js "Models Not Loaded"
  else js "System Ready".

Definition isSystemReady (systemStatus : SystemStatus) : bool :=
  backendConnected systemStatus && modelsLoaded systemStatus.

(** The [disabled] attribute of the submit button. *)
Definition submit_disabled (isLoading : bool) (systemStatus : SystemStatus)
           (f : Form.t) : bool :=
  isLoading || negb (string_truthy (trim (Form.smiles f)))
  || string_truthy (Form.inputError f) || negb (isSystemReady systemStatus).

End MoleculeInputForm.

(** The object held in [systemStatus], as stored. *)
Module Status.
Record t : Type := {
  backendConnected : JS.value;
  modelsLoaded : JS.value;
  datasetLoaded : JS.value
}.
End Status.

(** The object held in [modelStats]; the last two properties are absent
    ([undefined]) until the statistics are loaded. *)
Module ModelStats.
Record t : Type := {
  totalPredictions : float;
  accuracy : float;
  modelsCompared : float;
  functionalGroups : float;
  level1Accuracy : float;
  level2Accuracy : float;
  totalMolecules : JS.value;
  embeddingDimensions : JS.value
}.
End ModelStats.

Module AppShell.
Import JS App.
Local Open Scope js_scope.

(** Every use of the three status properties in the two components is a
    truthiness test; this is what those tests see. *)
Definition observed (s : Status.t) : SystemStatus :=
  {| backendConnected := truthy (Status.backendConnected s);
     modelsLoaded := truthy (Status.modelsLoaded s);
     datasetLoaded := truthy (Status.datasetLoaded s) |}.

Definition initialStatus : Status.t :=
  {| Status.backendConnected := VBool false;
     Status.modelsLoaded := VBool false;
     Status.datasetLoaded := VBool false |}.

Definition initialStats : ModelStats.t :=
  {| ModelStats.totalPredictions := 0;
     ModelStats.accuracy := 94.34;
     ModelStats.modelsCompared := 4;
     ModelStats.functionalGroups := 9;
     ModelStats.level1Accuracy := 94.34;
     ModelStats.level2Accuracy := 86.84;
     ModelStats.totalMolecules := VUndefined;
     ModelStats.embeddingDimensions := VUndefined |}.

(** What the two start-up calls read and write: the status, the
    statistics, the toasts shown and the errors logged, oldest first. *)
Record Shell : Type := {
  systemStatus : Status.t;
  modelStats : ModelStats.t;
  shown : list HotToast.t;
  logged : list exn
}.

Definition setSystemStatus (s : Status.t) (sh : Shell) : Shell :=
  {| systemStatus := s; modelStats := modelStats sh;
     shown := shown sh; logged := logged sh |}.

Definition setModelStats (f : ModelStats.t -> ModelStats.t) (sh : Shell) : Shell :=
  {| systemStatus := systemStatus sh; modelStats := f (modelStats sh);
     shown := shown sh; logged := logged sh |}.

Definition show (t : HotToast.t) (sh : Shell) : Shell :=
  {| systemStatus := systemStatus sh; modelStats := modelStats sh;
     shown := shown sh ++ [t]; logged := logged sh |}.

Definition log (e : exn) (sh : Shell) : Shell :=
  {| systemStatus := systemStatus sh; modelStats := modelStats sh;
     shown := shown sh; logged := logged sh ++ [e] |}.

(** [checkBackendStatus], given how the request to [/health] ends.  A
    response that is not [ok] is dropped without reading its body. *)
Definition checkBackendStatus (health : FetchOutcome) (sh : Shell) : Shell :=
  let attempt : completion Shell :=
    match health with
    | Rejected e => Throw e
    | Responded false _ => Normal sh
    | Responded true json =>
        data <- json ;;
        models_loaded <- get data (js "models_loaded") ;;
        dataset_loaded <- get data (js "dataset_loaded") ;;
        let sh := setSystemStatus
                    {| Status.backendConnected := VBool true;
                       Status.modelsLoaded := models_loaded;
                       Status.datasetLoaded := dataset_loaded |} sh in
        Normal (if truthy models_loaded
                then show (HotToast.success
                             ([55358; 56598]%N ++ js " ML Models loaded successfully")) sh
                else show (HotToast.error
                             (10060%N :: js " ML Models failed to load")) sh)
    end in
  match attempt with
  | Normal sh' => sh'
  | Throw error =>
      let sh := log error sh in
      let sh := setSystemStatus initialStatus sh in
      show (HotToast.error ([55357; 56588]%N ++ js " Backend connection failed")) sh
  end.

(** [o?.p]: [undefined] on a nullish holder, the read otherwise. *)
Definition optional_member (o : value) (p : jsstring) : value :=
  if nullish o then VUndefined else member o p.

(** The function [loadSystemStats] gives to [setModelStats].  React runs
    it when it next renders the component, outside the [try] block of the
    handler that queued it. *)
Definition statsUpdate (data : value) (prev : ModelStats.t) : completion ModelStats.t :=
  dataset_stats <- get data (js "dataset_stats") ;;
  let total := or_else (optional_member dataset_stats (js "total_molecules"))
                       (VNum 0) in
  dataset_stats' <- get data (js "dataset_stats") ;;
  let dimensions := or_else (optional_member dataset_stats' (js "embedding_dimensions"))
                            (VNum 64) in
  Normal {| ModelStats.totalPredictions := ModelStats.totalPredictions prev;
            ModelStats.accuracy := ModelStats.accuracy prev;
            ModelStats.modelsCompared := ModelStats.modelsCompared prev;
            ModelStats.functionalGroups := ModelStats.functionalGroups prev;
            ModelStats.level1Accuracy := ModelStats.level1Accuracy prev;
            ModelStats.level2Accuracy := ModelStats.level2Accuracy prev;
            ModelStats.totalMolecules := total;
            ModelStats.embeddingDimensions := dimensions |}.

(** [loadSystemStats], given how the request to [/stats] ends: what the
    handler does by itself.  Its [catch] block logs a rejected request and
    an unreadable body; on an OK response with a body it only queues
    [statsUpdate], which reads the body later. *)
Definition loadSystemStats (stats : FetchOutcome) (sh : Shell) : Shell :=
  match stats with
  | Rejected e => log e sh
  | Responded false _ => sh
  | Responded true (Throw e) => log e sh
  | Responded true (Normal data) => sh
  end.

(** The update [loadSystemStats] leaves for the next render, if any. *)
Definition loadSystemStats_queued (stats : FetchOutcome)
  : option (ModelStats.t -> completion ModelStats.t) :=
  match stats with
  | Responded true (Normal data) => Some (statsUpdate data)
  | _ => None
  end.

(** The next render applies the queued function to the statistics.  If the
    function throws, the render fails with that error: no handler's
    [catch] block is around it. *)
Inductive Rendering : Type :=
| Rendered (sh : Shell)
| RenderError (e : exn).

Definition render (queued : option (ModelStats.t -> completion ModelStats.t))
           (sh : Shell) : Rendering :=
  match queued with
  | None => Rendered sh
  | Some update =>
      match update (modelStats sh) with
      | Normal m => Rendered (setModelStats (fun _ => m) sh)
      | Throw e => RenderError e
      end
  end.

(** The status banners of the predictor view, top to bottom. *)
Inductive Banner : Type :=
| BackendDisconnected
| ModelsNotLoaded
| SystemReady.

Definition banners (s : SystemStatus) : list Banner :=
  (if negb (backendConnected s) then [BackendDisconnected] else [])
  ++ (if backendConnected s && negb (modelsLoaded s) then [ModelsNotLoaded] else [])
  ++ (if backendConnected s && modelsLoaded s then [SystemReady] else []).

End AppShell.

Module PredictionResultsView.
Import JS App.
Local Open Scope js_scope.

(** [Array.prototype.filter] with a callback that may throw. *)
Fixpoint Array_filter {A} (f : A -> completion bool) (l : list A) : completion (list A) :=
  match l with
  | [] => Normal []
  | a :: rest =>
      keep <- f a ;;
      kept <- Array_filter f rest ;;
      Normal (if keep then a :: kept else kept)
  end.

(** [s.replace('_', ' ')]: a string pattern replaces its first occurrence
    only. *)
Fixpoint replace_underscore (s : jsstring) : jsstring :=
  match s with
  | [] => []
  | c :: rest => if (c =? 95)%N then 32%N :: rest else c :: replace_underscore rest
  end.

Section View.
Variable E : Engine.

(** [v >= y] for a number [y]. *)
Definition ge (v : value) (y : float) : completion bool :=
  x <- ToNumber E v ;;
  Normal (y <=? x)%float.

Definition highConfidenceGroups (functionalGroups : list Group.t)
  : completion (list Group.t) :=
  Array_filter (fun group => gt E (Group.probability group) 0.7) functionalGroups.

Definition getConfidenceColor (confidence : value) : completion jsstring :=
  high <- ge confidence 0.9 ;;
  if high then Normal (js "text-green-400")
  else
    medium <- ge confidence 0.7 ;;
    if medium then Normal (js "text-yellow-400")
    else Normal (js "text-red-400").

(** The badge as [(text, color)]. *)
Definition getConfidenceBadge (confidence : value) : completion (jsstring * jsstring) :=
  high <- ge confidence 0.9 ;;
  if high then Normal (js "High", js "bg-green-500")
  else
    medium <- ge confidence 0.7 ;;
    if medium then Normal (js "Medium", js "bg-yellow-500")
    else Normal (js "Low", js "bg-red-500").

End View.

(** [functionalGroups.filter(g => g.detected)] *)
Definition detectedGroupsShown (functionalGroups : list Group.t) : list Group.t :=
  filter Group.detected functionalGroups.

End PredictionResultsView.

Module MoreVocabulary.
Import JS MoleculeInput App MoleculeInputForm AppVocabulary.

(** The error shown under the field is the validator's answer for the text
    in the field, blank text counting as no error. *)
Definition error_matches_text (f : Form.t) : Prop :=
  Form.inputError f =
    if string_truthy (trim (Form.smiles f))
    then validateSMILES (Form.smiles f) else js "".

(** The toast of a submission that goes through. *)
Definition analyzing : HotToast.t :=
  HotToast.success ([55357; 56620]%N ++ js " Analyzing molecule...").

(** The toast of a failed health check. *)
Definition connection_failed : HotToast.t :=
  HotToast.error ([55357; 56588]%N ++ js " Backend connection failed").

Definition is_success (t : HotToast.t) : bool :=
  match t with HotToast.success _ => true | HotToast.error _ => false end.

(** Models or dataset are reported loaded only by a backend reported
    connected. *)
Definition coherent (s : Status.t) : Prop :=
  (truthy (Status.modelsLoaded s) = true -> truthy (Status.backendConnected s) = true) /\
  (truthy (Status.datasetLoaded s) = true -> truthy (Status.backendConnected s) = true).

(** The request did not yield a body to read: it was rejected, the body
    could not be parsed, or the body is [null]. *)
Definition no_body (o : FetchOutcome) : Prop :=
  (exists e, o = Rejected e) \/
  (exists e, o = Responded true (Throw e)) \/
  (exists data, o = Responded true (Normal data) /\ nullish data = true).

End MoreVocabulary.

(* ================================================================== *)
(** ** Properties of the validator                                      *)
(* ================================================================== *)

Module ValidatorFacts.
Import JS MoleculeInput ValidatorVocabulary.


(** *** Trimming *)

Lemma trimStart_nil s : trimStart s = [] <-> forallb is_white_space s = true.
Proof.
  induction s as [|c s IH]; simpl; [tauto|].
  destruct (is_white_space c); simpl; [exact IH | split; discriminate].
Qed.

Lemma forallb_trimStart s :
  forallb is_white_space (trimStart s) = forallb is_white_space s.
Proof.
  induction s as [|c s IH]; simpl; [reflexivity|].
  destruct (is_white_space c) eqn:Hc; simpl; [exact IH | now rewrite Hc].
Qed.

Lemma forallb_rev {A} (f : A -> bool) l : forallb f (rev l) = forallb f l.
Proof.
  induction l as [|a l IH]; simpl; [reflexivity|].
  rewrite forallb_app, IH; simpl. rewrite andb_true_r. apply andb_comm.
Qed.

Lemma rev_nil_iff {A} (l : list A) : rev l = [] <-> l = [].
Proof.
  split; intro H; [|now subst].
  destruct l as [|a l]; [reflexivity|].
  simpl in H. now destruct (rev l).
Qed.

Lemma trim_nil s : trim s = [] <-> only_white_space s.
Proof.
  unfold trim, trimEnd, only_white_space.
  etransitivity; [apply rev_nil_iff|].
  etransitivity; [apply trimStart_nil|].
  rewrite forallb_rev, forallb_trimStart.
  apply forallb_forall.
Qed.

Lemma trimStart_id s : no_white_space s -> trimStart s = s.
Proof.
  intros H. destruct s as [|c s]; simpl; [reflexivity|].
  now rewrite (H c (or_introl eq_refl)).
Qed.

Lemma trim_id s : no_white_space s -> trim s = s.
Proof.
  intros H. unfold trim, trimEnd.
  rewrite (trimStart_id H), trimStart_id, rev_involutive; [reflexivity|].
  intros c Hc. apply H. now apply in_rev.
Qed.

(** *** The character class *)

Lemma white_space_not_allowed c : is_white_space c = true -> allowed c = false.
Proof.
  unfold is_white_space, allowed. intros H.
  apply not_true_is_false. intros A.
  repeat rewrite ?orb_true_iff, ?andb_true_iff, ?N.leb_le, ?N.eqb_eq in H.
  repeat rewrite ?orb_true_iff, ?andb_true_iff, ?N.leb_le, ?N.eqb_eq in A.
  lia.
Qed.

Lemma invalidChars_test_true s : invalidChars_test s = true <-> has_disallowed s.
Proof.
  unfold invalidChars_test, has_disallowed. rewrite existsb_exists.
  split; intros [c [Hin Hc]]; exists c; split; auto.
  - now apply negb_true_iff.
  - now apply negb_true_iff.
Qed.

Lemma invalidChars_test_false s :
  invalidChars_test s = false <-> (forall c, In c s -> allowed c = true).
Proof.
  split.
  - intros H c Hin. destruct (allowed c) eqn:Hc; [reflexivity|].
    assert (invalidChars_test s = true) by (apply invalidChars_test_true; now exists c).
    congruence.
  - intros H. apply not_true_is_false. intros T.
    apply invalidChars_test_true in T. destruct T as [c [Hin Hc]].
    rewrite (H c Hin) in Hc. discriminate.
Qed.

(** *** The counting loop *)


Lemma occurrences_cons d c s :
  occurrences d (c :: s) = (hit c d + occurrences d s)%Z.
Proof.
  unfold occurrences, hit. simpl count_occ.
  destruct (N.eq_dec c d) as [e|n].
  - apply N.eqb_eq in e. rewrite e. lia.
  - apply N.eqb_neq in n. rewrite n. lia.
Qed.

(** One code unit of the input moves the counters by its own brackets. *)
Lemma count_step_hit st c :
  (if is_bracket c then count_step st c else st)
  = (fst st + hit c 91 - hit c 93, snd st + hit c 40 - hit c 41)%Z.
Proof.
  destruct st as [a b]. unfold is_bracket, count_step, hit.
  destruct (N.eqb_spec c 91%N), (N.eqb_spec c 93%N),
           (N.eqb_spec c 40%N), (N.eqb_spec c 41%N);
    try (exfalso; lia); cbn [orb fst snd]; f_equal; lia.
Qed.

Lemma count_loop s : forall st,
  fold_left count_step (match_brackets s) st
  = (fst st + occurrences 91 s - occurrences 93 s,
     snd st + occurrences 40 s - occurrences 41 s)%Z.
Proof.
  unfold match_brackets.
  induction s as [|c s IH]; intros st.
  - destruct st as [a b]. unfold occurrences. cbn [filter fold_left count_occ fst snd].
    f_equal; lia.
  - rewrite !(occurrences_cons _ c s).
    assert (Hstep : fold_left count_step (filter is_bracket (c :: s)) st
                    = fold_left count_step (filter is_bracket s)
                                (if is_bracket c then count_step st c else st)).
    { cbn [filter]. now destruct (is_bracket c). }
    rewrite Hstep, count_step_hit, IH. cbn [fst snd]. f_equal; lia.
Qed.

Lemma count_brackets_spec s :
  count_brackets (match_brackets s)
  = (occurrences 91 s - occurrences 93 s, occurrences 40 s - occurrences 41 s)%Z.
Proof. unfold count_brackets. rewrite count_loop. cbn [fst snd]. f_equal; lia. Qed.

(** *** The four outcomes are four different strings. *)
Lemma outcomes_distinct :
  EmptyInput <> Valid /\ InvalidCharacters <> Valid /\ UnbalancedBrackets <> Valid /\
  EmptyInput <> InvalidCharacters /\ EmptyInput <> UnbalancedBrackets /\
  InvalidCharacters <> UnbalancedBrackets.
Proof. repeat split; intro H; vm_compute in H; discriminate. Qed.

(** *** The decision list, in the vocabulary above *)

Lemma validate_empty s : trim s = [] -> validateSMILES s = EmptyInput.
Proof. intros H. unfold validateSMILES. now rewrite H. Qed.

Lemma validate_disallowed s :
  trim s <> [] -> has_disallowed s -> validateSMILES s = InvalidCharacters.
Proof.
  intros Ht Hd. unfold validateSMILES.
  destruct (trim s) as [|c t]; [congruence|]. simpl.
  apply invalidChars_test_true in Hd. now rewrite Hd.
Qed.

Lemma validate_brackets s :
  trim s <> [] -> ~ has_disallowed s ->
  validateSMILES s =
    if ((occurrences 91 s =? occurrences 93 s) && (occurrences 40 s =? occurrences 41 s))%Z
    then Valid else UnbalancedBrackets.
Proof.
  intros Ht Hd. unfold validateSMILES.
  destruct (trim s) as [|c t]; [congruence|]. simpl.
  destruct (invalidChars_test s) eqn:Hi;
    [exfalso; apply Hd; now apply invalidChars_test_true|].
  rewrite count_brackets_spec.
  destruct (Z.eqb_spec (occurrences 91 s) (occurrences 93 s)) as [e1|n1];
  destruct (Z.eqb_spec (occurrences 40 s) (occurrences 41 s)) as [e2|n2]; simpl.
  - replace (occurrences 91 s - occurrences 93 s)%Z with 0%Z by lia.
    replace (occurrences 40 s - occurrences 41 s)%Z with 0%Z by lia.
    reflexivity.
  - replace (occurrences 91 s - occurrences 93 s)%Z with 0%Z by lia. simpl.
    destruct (Z.eqb_spec (occurrences 40 s - occurrences 41 s) 0); [lia|reflexivity].
  - destruct (Z.eqb_spec (occurrences 91 s - occurrences 93 s) 0); [lia|reflexivity].
  - destruct (Z.eqb_spec (occurrences 91 s - occurrences 93 s) 0); [lia|reflexivity].
Qed.

Lemma validate_balanced s :
  trim s <> [] -> ~ has_disallowed s -> equal_counts s -> validateSMILES s = Valid.
Proof.
  intros Ht Hd [Hr Hs]. rewrite (validate_brackets Ht Hd).
  apply Z.eqb_eq in Hr, Hs. now rewrite Hr, Hs.
Qed.

Lemma validate_unbalanced s :
  trim s <> [] -> ~ has_disallowed s -> ~ equal_counts s ->
  validateSMILES s = UnbalancedBrackets.
Proof.
  intros Ht Hd Hn. rewrite (validate_brackets Ht Hd).
  destruct (Z.eqb_spec (occurrences 91 s) (occurrences 93 s)) as [e1|n1];
  destruct (Z.eqb_spec (occurrences 40 s) (occurrences 41 s)) as [e2|n2];
    simpl; try reflexivity.
  exfalso. apply Hn. now split.
Qed.

(** What a successful validation tells about the input. *)
Lemma validate_valid_inv s :
  validateSMILES s = Valid ->
  trim s <> [] /\ ~ has_disallowed s /\ equal_counts s.
Proof.
  intros H. pose proof outcomes_distinct as (D1 & D2 & D3 & _).
  destruct (list_eq_dec N.eq_dec (trim s) []) as [e|Ht].
  { rewrite (validate_empty _ e) in H. contradiction. }
  destruct (invalidChars_test s) eqn:Hi.
  { apply invalidChars_test_true in Hi.
    rewrite (validate_disallowed Ht Hi) in H. contradiction. }
  assert (Hd : ~ has_disallowed s).
  { intro Hd. apply invalidChars_test_true in Hd. congruence. }
  repeat split; auto.
  - rewrite (validate_brackets Ht Hd) in H.
    destruct (Z.eqb_spec (occurrences 40 s) (occurrences 41 s)); [assumption|].
    rewrite andb_false_r in H. contradiction.
  - rewrite (validate_brackets Ht Hd) in H.
    destruct (Z.eqb_spec (occurrences 91 s) (occurrences 93 s)); [assumption|].
    simpl in H. contradiction.
Qed.

End ValidatorFacts.

(* ================================================================== *)
(** ** The validator, claim by claim                                    *)
(* ================================================================== *)

Import JS MoleculeInput ValidatorVocabulary ValidatorFacts.

(** Closing side conditions on literal inputs. *)
Ltac nonempty_trim := let H := fresh in intro H; vm_compute in H; discriminate H.
Ltac none_disallowed :=
  let H := fresh in
  intro H; apply invalidChars_test_true in H; vm_compute in H; discriminate H.
Ltac some_disallowed := apply invalidChars_test_true; vm_compute; reflexivity.
Ltac counts_equal := split; vm_compute; reflexivity.
Ltac counts_differ :=
  let H := fresh in
  intros [H H0]; vm_compute in H; vm_compute in H0;
  first [discriminate H | discriminate H0].
Ltac other_outcome := let H := fresh in intro H; vm_compute in H; discriminate H.

(** C4, as stated, does not hold: equal bracket counts do not make an input
    valid when it is empty or carries a disallowed character, and unequal
    counts are not reported when an earlier check already failed. *)
Lemma equal_counts_do_not_decide_alone :
  (equal_counts (js "") /\ validateSMILES (js "") <> Valid) /\
  (equal_counts (js "C;C") /\ validateSMILES (js "C;C") <> Valid) /\
  (~ equal_counts (js "C;(") /\ validateSMILES (js "C;(") <> UnbalancedBrackets).
Proof.
  repeat split; first [vm_compute; reflexivity | counts_differ | other_outcome].
Qed.

(** C4 (amended): among the inputs that are non-empty after trimming and use
    only allowed characters, the bracket check looks at counts only, one
    count per bracket kind: equal numbers of ['('] and [')'] and of ['[']
    and [']'], in whatever order, give success; any difference gives the
    unbalanced-brackets message. *)
Theorem bracket_check_counts_only (s : jsstring) :
  trim s <> [] -> ~ has_disallowed s ->
  (equal_counts s -> validateSMILES s = Valid) /\
  (~ equal_counts s -> validateSMILES s = UnbalancedBrackets).
Proof.
  intros Ht Hd. split; intro H.
  - now apply validate_balanced.
  - now apply validate_unbalanced.
Qed.

Lemma bracket_check_counts_only_witness :
  validateSMILES (js "([)]") = Valid /\
  validateSMILES (js "CC(") = UnbalancedBrackets /\
  validateSMILES (js "CC)") = UnbalancedBrackets.
Proof.
  split; [|split].
  - apply (bracket_check_counts_only (s := js "([)]"));
      [nonempty_trim | none_disallowed | counts_equal].
  - apply (bracket_check_counts_only (s := js "CC("));
      [nonempty_trim | none_disallowed | counts_differ].
  - apply (bracket_check_counts_only (s := js "CC)"));
      [nonempty_trim | none_disallowed | counts_differ].
Defined.

(** C5: the three checks run in a fixed order and the first failure is the
    answer: emptiness after trimming, then the character class, then the
    bracket counts.  Each call yields one of four pairwise different
    strings, so never two reasons at once; an input made of white space only
    gets the empty-input message. *)
Theorem validate_first_failure_wins (s : jsstring) :
  (trim s = [] -> validateSMILES s = EmptyInput) /\
  (trim s <> [] -> has_disallowed s -> validateSMILES s = InvalidCharacters) /\
  (trim s <> [] -> ~ has_disallowed s -> ~ equal_counts s ->
     validateSMILES s = UnbalancedBrackets) /\
  (trim s <> [] -> ~ has_disallowed s -> equal_counts s ->
     validateSMILES s = Valid) /\
  (only_white_space s -> validateSMILES s = EmptyInput) /\
  (validateSMILES s = Valid \/ validateSMILES s = EmptyInput \/
   validateSMILES s = InvalidCharacters \/ validateSMILES s = UnbalancedBrackets) /\
  (EmptyInput <> Valid /\ InvalidCharacters <> Valid /\ UnbalancedBrackets <> Valid /\
   EmptyInput <> InvalidCharacters /\ EmptyInput <> UnbalancedBrackets /\
   InvalidCharacters <> UnbalancedBrackets).
Proof.
  split; [apply validate_empty|].
  split; [apply validate_disallowed|].
  split; [apply validate_unbalanced|].
  split; [apply validate_balanced|].
  split; [intro H; apply validate_empty; now apply trim_nil|].
  split; [|exact outcomes_distinct].
  unfold validateSMILES.
  destruct (negb (string_truthy (trim s))); [tauto|].
  destruct (invalidChars_test s); [tauto|].
  destruct (count_brackets (match_brackets s)) as [squareCount roundCount].
  destruct (negb (squareCount =? 0)%Z || negb (roundCount =? 0)%Z); tauto.
Qed.

(** An input failing all three checks, one failing the last two, one failing
    the last, and one passing. *)
Lemma validate_first_failure_wins_witness :
  validateSMILES (js " ") = EmptyInput /\
  validateSMILES (js "C;(") = InvalidCharacters /\
  validateSMILES (js "CC(") = UnbalancedBrackets /\
  validateSMILES (js "CC(=O)C") = Valid.
Proof.
  split; [|split; [|split]].
  - apply (validate_first_failure_wins (js " ")).
    intros c [<-|[]]. reflexivity.
  - apply (validate_first_failure_wins (js "C;(")); [nonempty_trim | some_disallowed].
  - apply (validate_first_failure_wins (js "CC("));
      [nonempty_trim | none_disallowed | counts_differ].
  - apply (validate_first_failure_wins (js "CC(=O)C"));
      [nonempty_trim | none_disallowed | counts_equal].
Defined.

(** C6, as stated, does not hold: a blank is outside the allowed set, yet a
    string of blanks is answered with the empty-input message. *)
Lemma disallowed_but_reported_empty :
  has_disallowed (js " ") /\ validateSMILES (js " ") <> InvalidCharacters.
Proof. split; [some_disallowed | other_outcome]. Qed.

(** C6 (amended): every input that is non-empty after trimming and contains a
    code unit outside [A-Z a-z 0-9 [ ] ( ) = # + - @ / \ .] gets the
    invalid-characters message; nothing is assumed about its brackets, so
    this answer wins over the bracket check when both would fail. *)
Theorem disallowed_character_reported (s : jsstring) :
  trim s <> [] -> has_disallowed s ->
  validateSMILES s = InvalidCharacters /\ validateSMILES s <> UnbalancedBrackets.
Proof.
  intros Ht Hd. rewrite (validate_disallowed Ht Hd).
  split; [reflexivity | apply outcomes_distinct].
Qed.

Lemma disallowed_character_reported_witness :
  (validateSMILES (js "C;C") = InvalidCharacters /\
   validateSMILES (js "C;C") <> UnbalancedBrackets) /\
  (~ equal_counts (js "C;(") /\
   validateSMILES (js "C;(") = InvalidCharacters /\
   validateSMILES (js "C;(") <> UnbalancedBrackets).
Proof.
  split; [|split].
  - apply (disallowed_character_reported (s := js "C;C"));
      [nonempty_trim | some_disallowed].
  - counts_differ.
  - apply (disallowed_character_reported (s := js "C;("));
      [nonempty_trim | some_disallowed].
Defined.

(** C9: the character class is tested on the input as typed, and no
    white-space code unit belongs to it.  So an input with any white space,
    even only around an otherwise valid notation, gets the
    invalid-characters message as soon as its trim is non-empty; and an
    input that validates has no white space and is its own trim. *)
Theorem white_space_is_disallowed (s : jsstring) :
  (trim s <> [] -> (exists c, In c s /\ is_white_space c = true) ->
     validateSMILES s = InvalidCharacters) /\
  (validateSMILES s = Valid -> no_white_space s /\ trim s = s).
Proof.
  split.
  - intros Ht [c [Hin Hc]]. apply validate_disallowed; [assumption|].
    exists c. split; [assumption | now apply white_space_not_allowed].
  - intros H. apply validate_valid_inv in H. destruct H as (_ & Hd & _).
    assert (Hn : no_white_space s).
    { intros c Hin. destruct (is_white_space c) eqn:Hc; [|reflexivity].
      exfalso. apply Hd. exists c. split; [assumption|].
      now apply white_space_not_allowed. }
    split; [exact Hn | now apply trim_id].
Qed.

Lemma white_space_is_disallowed_witness :
  validateSMILES (js " CCO ") = InvalidCharacters /\
  (no_white_space (js "CCO") /\ trim (js "CCO") = js "CCO").
Proof.
  split.
  - apply (white_space_is_disallowed (js " CCO ")); [nonempty_trim|].
    exists 32%N. split; [left; reflexivity | reflexivity].
  - apply (white_space_is_disallowed (js "CCO")). vm_compute. reflexivity.
Defined.


Module AppFacts.
Import JS App AppVocabulary.
Local Open Scope js_scope.

Lemma capitalize_spec E name :
  toUpperCase E (charAt0 name) ++ slice1 name = capitalized E name.
Proof.
  destruct name as [|c rest]; [reflexivity|].
  unfold toUpperCase, charAt0, slice1, capitalized. cbn [flat_map tl].
  now rewrite app_nil_r.
Qed.

Lemma groupRecord_number E name x :
  groupRecord E (name, VNum x) = Normal (group_of E (name, x)).
Proof.
  unfold groupRecord, group_of, gt, ToNumber. cbn [bind fst snd].
  now rewrite capitalize_spec.
Qed.

Lemma Array_map_number_map E groups :
  Array_map (groupRecord E) (map (fun kx => (fst kx, VNum (snd kx))) groups)
  = Normal (map (group_of E) groups).
Proof.
  induction groups as [|[k x] groups IH]; [reflexivity|].
  cbn [map Array_map fst snd]. rewrite groupRecord_number. cbn [bind].
  rewrite IH. reflexivity.
Qed.


Lemma groupRecord_inv E entry g :
  groupRecord E entry = Normal g -> record_of_entry E entry g.
Proof.
  destruct entry as [name probability]. unfold groupRecord, record_of_entry.
  cbn [fst snd].
  destruct (gt E probability 0.5) as [d|e]; cbn [bind]; [|discriminate].
  intros H. injection H as <-. cbn [Group.name Group.probability Group.confidence Group.detected].
  rewrite capitalize_spec. repeat split.
Qed.

Lemma Array_map_Forall2 {A B} (f : A -> completion B) l : forall l',
  Array_map f l = Normal l' -> Forall2 (fun a b => f a = Normal b) l l'.
Proof.
  induction l as [|a l IH]; intros l' H; cbn [Array_map] in H.
  - injection H as <-. constructor.
  - destruct (f a) as [b|e] eqn:Hb; cbn [bind] in H; [|discriminate].
    destruct (Array_map f l) as [bs|e]; cbn [bind] in H; [|discriminate].
    injection H as <-. constructor; [exact Hb | now apply IH].
Qed.

Lemma transformedPrediction_ok E result entries gs :
  nullish result = false ->
  nullish (field result "level1") = false ->
  nullish (field result "level2") = false ->
  nullish (field result "metadata") = false ->
  Object_entries (field (field result "level2") "functional_groups") = Normal entries ->
  Array_map (groupRecord E) entries = Normal gs ->
  transformedPrediction E result = Normal (built result gs).
Proof.
  unfold field. intros H0 H1 H2 H3 He Hg.
  unfold transformedPrediction, read, get. cbn [bind].
  rewrite H0. cbn [bind]. rewrite H1. cbn [bind]. rewrite H2. cbn [bind].
  assert (Hn : nullish (member (member result (js "level2")) (js "functional_groups")) = false).
  { destruct (member (member result (js "level2")) (js "functional_groups"));
      try reflexivity; discriminate He. }
  rewrite He. cbn [bind]. rewrite Hg. cbn [bind]. rewrite H3. cbn [bind].
  reflexivity.
Qed.

Lemma transformedPrediction_inv E result p :
  transformedPrediction E result = Normal p ->
  exists entries,
    nullish result = false /\
    nullish (field result "level1") = false /\
    nullish (field result "level2") = false /\
    nullish (field result "metadata") = false /\
    Object_entries (field (field result "level2") "functional_groups") = Normal entries /\
    Array_map (groupRecord E) entries = Normal (functionalGroups p) /\
    p = built result (functionalGroups p).
Proof.
  unfold field, transformedPrediction, read, get. cbn [bind]. intros H.
  destruct (nullish result); [discriminate H|]. cbn [bind] in H.
  destruct (nullish (member result (js "level1"))); [discriminate H|]. cbn [bind] in H.
  destruct (nullish (member result (js "level2"))); [discriminate H|]. cbn [bind] in H.
  destruct (Object_entries (member (member result (js "level2")) (js "functional_groups")))
    as [entries|e]; [|discriminate H]. cbn [bind] in H.
  destruct (Array_map (groupRecord E) entries) as [gs|e] eqn:Hg; [|discriminate H].
  cbn [bind] in H.
  destruct (nullish (member result (js "metadata"))); [discriminate H|]. cbn [bind] in H.
  injection H as <-. exists entries. repeat split; try reflexivity. exact Hg.
Qed.




Lemma handlePrediction_on_throw (E : Engine) (w : World) (smiles : jsstring)
      (st : State) (e : exn) :
  ready st -> requestPrediction E w smiles = Throw e ->
  handlePrediction E w smiles st
  = {| predictionData := None; isLoading := false;
       systemStatus := systemStatus st;
       totalPredictions := totalPredictions st;
       toasts := toasts st ++ [error_prediction_failed e];
       console := console st ++ [e] |}.
Proof.
  intros [Hb Hm] H. unfold handlePrediction.
  cbn [setIsLoading systemStatus]. rewrite Hb, Hm, H. reflexivity.
Qed.

End AppFacts.


(* ================================================================== *)
(** ** The response transform, claim by claim                           *)
(* ================================================================== *)

Import App AppVocabulary AppFacts Examples PredictionResults.

(** C3: for a response of the documented shape, the transform yields one
    record per key of [level2.functional_groups], in the order the mapping
    enumerates its keys.  Each record carries the key with its first code
    unit upper-cased and the rest unchanged, the probability itself as both
    [probability] and [confidence], and [detected] true exactly when
    [0.5 < probability]; at exactly 0.5 it is false. *)
Theorem one_record_per_group (E : Engine) (result : value) :
  (forall p, transformedPrediction E result = Normal p ->
     exists entries,
       Object_entries (field (field result "level2") "functional_groups") = Normal entries /\
       Forall2 (record_of_entry E) entries (functionalGroups p)) /\
  (forall groups, well_shaped result groups ->
     exists p, transformedPrediction E result = Normal p /\
               functionalGroups p = map (group_of E) groups /\
               List.length (functionalGroups p) = List.length groups) /\
  (forall c rest, (97 <= c <= 122)%N ->
     capitalized E (c :: rest) = (c - 32)%N :: rest) /\
  (forall name, exists g, groupRecord E (name, VNum 0.5) = Normal g /\
                          Group.detected g = false).
Proof.
  split; [|split; [|split]].
  - intros p H. apply transformedPrediction_inv in H.
    destruct H as (entries & _ & _ & _ & _ & He & Hg & _).
    exists entries. split; [exact He|].
    apply Array_map_Forall2 in Hg.
    revert Hg. apply Forall2_impl. intros entry g. apply groupRecord_inv.
  - intros groups (H0 & H1 & H2 & H3 & Hg).
    exists (built result (map (group_of E) groups)).
    split; [|split; [reflexivity | apply length_map]].
    apply transformedPrediction_ok with (entries := map (fun kx => (fst kx, VNum (snd kx))) groups);
      try assumption.
    + rewrite Hg. reflexivity.
    + apply Array_map_number_map.
  - intros c rest [Hlo Hhi]. unfold capitalized, upper_unit.
    apply N.leb_le in Hlo, Hhi. rewrite Hlo, Hhi. reflexivity.
  - intros name. exists (group_of E (name, 0.5%float)).
    split; [apply groupRecord_number | reflexivity].
Qed.

(** The mapping [{alcohol: 0.9, amine: 0.3}]. *)
Lemma one_record_per_group_witness :
  well_shaped response_example groups_example /\
  forall E, exists p,
    transformedPrediction E response_example = Normal p /\
    map Group.name (functionalGroups p) = [js "Alcohol"; js "Amine"] /\
    map Group.probability (functionalGroups p) = [VNum 0.9; VNum 0.3] /\
    map Group.detected (functionalGroups p) = [true; false] /\
    map Group.confidence (functionalGroups p) = [VNum 0.9; VNum 0.3].
Proof.
  assert (W : well_shaped response_example groups_example)
    by (repeat split; reflexivity).
  split; [exact W|]. intros E.
  destruct (proj1 (proj2 (one_record_per_group E response_example)) _ W)
    as (p & Hp & Hg & _).
  exists p. rewrite Hg. repeat split; [exact Hp | reflexivity ..].
Defined.




(** C8: what a request produces depends on the backend's answer alone: two
    runs that differ only in their clock readings give the same outcome,
    and the [timestamp] of the record is the one found in the response. *)
Theorem transform_is_pure (E : Engine) :
  (forall w w' smiles,
     fetch_predict w smiles = fetch_predict w' smiles ->
     requestPrediction E w smiles = requestPrediction E w' smiles) /\
  (forall result p,
     transformedPrediction E result = Normal p ->
     timestamp p = field result "timestamp").
Proof.
  split.
  - intros w w' smiles H. unfold requestPrediction. rewrite H. reflexivity.
  - intros result p H. apply transformedPrediction_inv in H.
    destruct H as (entries & _ & _ & _ & _ & _ & _ & ->). reflexivity.
Qed.

(** Same answer, clocks started at different times and run for different
    spans. *)
Lemma transform_is_pure_witness :
  (forall E,
     requestPrediction E (world_answering 0 30 true response_example) (js "CCO")
     = requestPrediction E (world_answering 1000 99000 true response_example) (js "CCO")) /\
  (forall E, exists p,
     transformedPrediction E response_example = Normal p /\
     timestamp p = VStr (js "2024-05-01T10:00:00")).
Proof.
  split; intros E.
  - apply (proj1 (transform_is_pure E)). reflexivity.
  - assert (T : transformedPrediction E response_example
                = Normal (built response_example (map (group_of E) groups_example)))
      by reflexivity.
    eexists. split; [exact T|].
    rewrite (proj2 (transform_is_pure E) _ _ T). reflexivity.
Defined.

(** C10: [totalDetected] is whatever the response holds under
    [level2.total_detected]; it is not recounted from the records, and for
    some response it disagrees with the number of records flagged as
    detected. *)
Theorem totalDetected_is_copied (E : Engine) :
  (forall result p,
     transformedPrediction E result = Normal p ->
     totalDetected p = field (field result "level2") "total_detected") /\
  (exists result p,
     transformedPrediction E result = Normal p /\
     totalDetected p = VNum 5 /\
     detected_count p = 1%nat).
Proof.
  split.
  - intros result p H. apply transformedPrediction_inv in H.
    destruct H as (entries & _ & _ & _ & _ & _ & _ & ->). reflexivity.
  - exists response_miscounted, (built response_miscounted (map (group_of E) groups_example)).
    repeat split; reflexivity.
Qed.

(** A response announcing five detected groups next to a mapping in which
    one probability exceeds 0.5. *)
Lemma totalDetected_is_copied_witness :
  field (field response_miscounted "level2") "total_detected" = VNum 5 /\
  forall E, exists p,
    transformedPrediction E response_miscounted = Normal p /\
    totalDetected p = VNum 5.
Proof.
  split; [reflexivity|]. intros E.
  assert (T : transformedPrediction E response_miscounted
              = Normal (built response_miscounted (map (group_of E) groups_example)))
    by reflexivity.
  eexists. split; [exact T|].
  rewrite (proj1 (totalDetected_is_copied E) _ _ T). reflexivity.
Defined.

(** C2, as stated, does not hold: when the response carries no stage-1
    label the transform leaves [level1Prediction] undefined; it does not
    put ["HAS_GROUPS"] or ["NO_GROUPS"] there. *)
Lemma absent_label_stays_undefined :
  field (field response_without_label "level1") "prediction" = VUndefined /\
  forall E, exists p,
    transformedPrediction E response_without_label = Normal p /\
    level1Prediction p = VUndefined /\
    level1Prediction p <> VStr (js "HAS_GROUPS") /\
    level1Prediction p <> VStr (js "NO_GROUPS").
Proof.
  split; [reflexivity|]. intros E.
  exists (built response_without_label (map (group_of E) groups_example)).
  repeat split; try reflexivity; discriminate.
Qed.

(** C2 (amended): the transform copies the three stage-1 fields as they are,
    an absent label staying undefined.  The label is made up from
    [hasGroups] later, by the result view, whenever the copied label is
    falsy (absent, [null] or empty); a truthy label is shown unchanged. *)
Theorem stage1_fields_copied (E : Engine) (result : value) (p : Prediction) :
  transformedPrediction E result = Normal p ->
  hasGroups p = field (field result "level1") "has_functional_groups" /\
  confidence p = field (field result "level1") "confidence" /\
  level1Prediction p = field (field result "level1") "prediction" /\
  (truthy (level1Prediction p) = true -> binaryPrediction p = level1Prediction p) /\
  (truthy (level1Prediction p) = false ->
     binaryPrediction p
     = VStr (if truthy (hasGroups p) then js "HAS_GROUPS" else js "NO_GROUPS")).
Proof.
  intros H. apply transformedPrediction_inv in H.
  destruct H as (entries & _ & _ & _ & _ & _ & _ & Hp).
  repeat split; try (rewrite Hp; reflexivity).
  - intros T. unfold binaryPrediction, or_else. now rewrite T.
  - intros T. unfold binaryPrediction, or_else. rewrite T.
    now destruct (truthy (hasGroups p)).
Qed.

(** With the label in the response it is shown as received; without it the
    view shows the made-up one. *)
Lemma stage1_fields_copied_witness :
  (forall E, exists p,
     transformedPrediction E response_example = Normal p /\
     hasGroups p = VBool true /\
     confidence p = VNum 0.95 /\
     level1Prediction p = VStr (js "HAS_GROUPS") /\
     binaryPrediction p = VStr (js "HAS_GROUPS")) /\
  (forall E, exists p,
     transformedPrediction E response_without_label = Normal p /\
     level1Prediction p = VUndefined /\
     binaryPrediction p = VStr (js "HAS_GROUPS")).
Proof.
  split; intros E.
  - assert (T : transformedPrediction E response_example
                = Normal (built response_example (map (group_of E) groups_example)))
      by reflexivity.
    destruct (stage1_fields_copied E _ T) as (Hh & Hc & Hl & Ht & _).
    eexists. split; [exact T|].
    rewrite Hh, Hc, Ht; rewrite Hl; repeat split; reflexivity.
  - assert (T : transformedPrediction E response_without_label
                = Normal (built response_without_label (map (group_of E) groups_example)))
      by reflexivity.
    destruct (stage1_fields_copied E _ T) as (Hh & _ & Hl & _ & Hf).
    eexists. split; [exact T|].
    rewrite Hf; rewrite Hl; [|reflexivity]. rewrite Hh. split; reflexivity.
Defined.

(* ================================================================== *)
(** ** The request handler, claim by claim                              *)
(* ================================================================== *)





(* ================================================================== *)
(** ** Further properties of the validator                              *)
(* ================================================================== *)

Module ValidatorMore.
Import JS MoleculeInput ValidatorVocabulary ValidatorFacts.

Lemma string_eqb_eq a b : string_eqb a b = true <-> a = b.
Proof.
  unfold string_eqb. destruct (list_eq_dec N.eq_dec a b); split; congruence.
Qed.

Lemma trim_truthy s : string_truthy (trim s) = negb (forallb is_white_space s).
Proof.
  destruct (forallb is_white_space s) eqn:F.
  - assert (T : trim s = []) by (apply trim_nil; intros c; now apply forallb_forall).
    now rewrite T.
  - destruct (trim s) eqn:T; [|reflexivity].
    apply trim_nil in T. unfold only_white_space in T.
    apply forallb_forall in T. congruence.
Qed.

(** The answer of the validator read off three quantities of its input,
    none of which looks at positions. *)
Lemma validate_by_content s :
  validateSMILES s =
    if forallb is_white_space s then EmptyInput
    else if existsb (fun c => negb (allowed c)) s then InvalidCharacters
    else if ((occurrences 91 s =? occurrences 93 s)
             && (occurrences 40 s =? occurrences 41 s))%Z
         then Valid else UnbalancedBrackets.
Proof.
  pose proof (trim_truthy s) as T.
  destruct (forallb is_white_space s) eqn:F.
  - apply validate_empty. now destruct (trim s).
  - assert (Ht : trim s <> []) by (intro H; now rewrite H in T).
    destruct (existsb (fun c => negb (allowed c)) s) eqn:X.
    + apply validate_disallowed; [exact Ht | now apply invalidChars_test_true].
    + apply validate_brackets; [exact Ht|].
      intro H. apply invalidChars_test_true in H.
      unfold invalidChars_test in H. congruence.
Qed.

Lemma forallb_Permutation {A} (f : A -> bool) l l' :
  Permutation l l' -> forallb f l = forallb f l'.
Proof.
  induction 1 as [|x l l' _ IH|x y l|l l' l'' _ IH1 _ IH2]; simpl.
  - reflexivity.
  - now rewrite IH.
  - now destruct (f x), (f y).
  - congruence.
Qed.

Lemma existsb_Permutation {A} (f : A -> bool) l l' :
  Permutation l l' -> existsb f l = existsb f l'.
Proof.
  induction 1 as [|x l l' _ IH|x y l|l l' l'' _ IH1 _ IH2]; simpl.
  - reflexivity.
  - now rewrite IH.
  - now destruct (f x), (f y).
  - congruence.
Qed.

Lemma occurrences_Permutation c s s' :
  Permutation s s' -> occurrences c s = occurrences c s'.
Proof.
  intros P. unfold occurrences. f_equal.
  revert c. now apply (Permutation_count_occ N.eq_dec).
Qed.

Lemma occurrences_app c s t :
  occurrences c (s ++ t) = (occurrences c s + occurrences c t)%Z.
Proof. unfold occurrences. rewrite count_occ_app. apply Nat2Z.inj_add. Qed.

Lemma valid_no_white_space s : validateSMILES s = Valid -> no_white_space s.
Proof.
  intros H. apply validate_valid_inv in H. destruct H as (_ & Hd & _).
  intros c Hin. destruct (is_white_space c) eqn:Hc; [|reflexivity].
  exfalso. apply Hd. exists c. split; [assumption|].
  now apply white_space_not_allowed.
Qed.

Lemma valid_trim s : validateSMILES s = Valid -> trim s = s /\ s <> [].
Proof.
  intros H. pose proof (@trim_id s (@valid_no_white_space s H)) as T.
  split; [exact T|]. apply validate_valid_inv in H. destruct H as (Ht & _).
  now rewrite T in Ht.
Qed.

End ValidatorMore.

Import ValidatorMore.

(** X1: the validator does not look at the order of the code units: two
    inputs that are rearrangements of one another get the same answer, so
    closing brackets may even come first. *)
Theorem validate_ignores_order (s s' : jsstring) :
  Permutation s s' -> validateSMILES s = validateSMILES s'.
Proof.
  intros P. rewrite !validate_by_content.
  rewrite (forallb_Permutation is_white_space P).
  rewrite (existsb_Permutation (fun c => negb (allowed c)) P).
  now rewrite !(occurrences_Permutation _ P).
Qed.

Lemma validate_ignores_order_witness :
  validateSMILES (js ")C(") = validateSMILES (js "C()") /\
  validateSMILES (js ")C(") = Valid.
Proof.
  assert (P : Permutation (js ")C(") (js "C()")).
  { change (Permutation [41; 67; 40]%N [67; 40; 41]%N).
    apply Permutation_trans with (l' := [67; 41; 40]%N);
      [apply perm_swap | apply perm_skip, perm_swap]. }
  split; [exact (validate_ignores_order P)|].
  rewrite (validate_ignores_order P). reflexivity.
Defined.

(** X2: two inputs that both validate still validate when written one
    after the other. *)
Theorem valid_inputs_concatenate (s t : jsstring) :
  validateSMILES s = Valid -> validateSMILES t = Valid ->
  validateSMILES (s ++ t) = Valid.
Proof.
  intros Hs Ht.
  apply validate_valid_inv in Hs, Ht.
  destruct Hs as (Ns & Ds & Cs1 & Cs2), Ht as (Nt & Dt & Ct1 & Ct2).
  apply validate_balanced.
  - intro H. apply trim_nil in H. apply Ns. apply trim_nil.
    intros c Hin. apply H. apply in_or_app. now left.
  - intros (c & Hin & Hc). apply in_app_or in Hin.
    destruct Hin as [Hin|Hin]; [apply Ds | apply Dt]; now exists c.
  - split; rewrite !occurrences_app; lia.
Qed.

Lemma valid_inputs_concatenate_witness :
  validateSMILES (js "CC(=O)C" ++ js "[C@@H]") = Valid.
Proof.
  apply valid_inputs_concatenate; reflexivity.
Defined.

(* ================================================================== *)
(** ** The input form: what is submitted, and when                      *)
(* ================================================================== *)

Module FormFacts.
Import JS MoleculeInput App MoleculeInputForm ValidatorVocabulary ValidatorFacts ValidatorMore MoreVocabulary.

Lemma ready_split s :
  isSystemReady s = true <-> backendConnected s = true /\ modelsLoaded s = true.
Proof. unfold isSystemReady. apply andb_true_iff. Qed.

Lemma handleSubmit_valid s f :
  isSystemReady s = true -> validateSMILES (Form.smiles f) = Valid ->
  handleSubmit s f = {| shown := [analyzing]; onPredict := [Form.smiles f] |}.
Proof.
  intros R V. apply ready_split in R. destruct R as [Rb Rm].
  destruct (@valid_trim _ V) as [T N].
  unfold handleSubmit. rewrite Rb, Rm, T, V. cbn [negb].
  destruct (Form.smiles f); [congruence | reflexivity].
Qed.

Lemma handleSubmit_calls s f arg :
  In arg (onPredict (handleSubmit s f)) ->
  isSystemReady s = true /\ validateSMILES (Form.smiles f) = Valid /\
  arg = Form.smiles f.
Proof.
  unfold handleSubmit, isSystemReady.
  destruct (backendConnected s); cbn [negb onPredict]; [|intros []].
  destruct (modelsLoaded s); cbn [negb onPredict]; [|intros []].
  destruct (string_truthy (trim (Form.smiles f))); cbn [negb onPredict]; [|intros []].
  destruct (validateSMILES (Form.smiles f)) as [|c error] eqn:V;
    cbn [string_truthy onPredict]; [|intros []].
  intros [<-|[]]. repeat split; try reflexivity.
  exact (proj1 (@valid_trim _ V)).
Qed.

Lemma examples_validate :
  forall example, In example exampleMolecules ->
                  validateSMILES (Molecule.smiles example) = Valid.
Proof.
  assert (H : forallb (fun example =>
                         string_eqb (validateSMILES (Molecule.smiles example)) Valid)
                      exampleMolecules = true) by (vm_compute; reflexivity).
  intros example Hin.
  apply string_eqb_eq. revert example Hin. now apply forallb_forall.
Qed.

End FormFacts.

Import MoleculeInputForm MoreVocabulary FormFacts.

(** X3: a submission calls [onPredict] exactly when the backend is
    connected, the models are loaded and the text validates; the argument
    is then the text as typed (trimming changes nothing on it), and it is
    never empty.  Nothing else is ever passed on. *)
Theorem submit_passes_on_valid_text_only (s : SystemStatus) (f : Form.t) :
  (isSystemReady s = true -> validateSMILES (Form.smiles f) = Valid ->
     onPredict (handleSubmit s f) = [Form.smiles f]) /\
  (forall arg, In arg (onPredict (handleSubmit s f)) ->
     isSystemReady s = true /\ validateSMILES arg = Valid /\
     arg = Form.smiles f /\ arg <> [] /\ trim arg = arg).
Proof.
  split.
  - intros R V. now rewrite (@handleSubmit_valid s f R V).
  - intros arg Hin. apply handleSubmit_calls in Hin.
    destruct Hin as (R & V & ->).
    destruct (@valid_trim (Form.smiles f) V) as [T N]. repeat split; assumption.
Qed.

Lemma submit_passes_on_valid_text_only_witness :
  onPredict (handleSubmit (systemStatus state_showing)
                          (handleInputChange (js "CC(=O)C") initial))
  = [js "CC(=O)C"].
Proof.
  apply submit_passes_on_valid_text_only; reflexivity.
Defined.

(** X4: the validator's own empty-input message never reaches the user
    through the form: blank text is answered by the form itself, with
    another message on submission and with no error at all while typing. *)
Theorem empty_input_message_is_never_shown (s : SystemStatus) (value : jsstring)
        (f : Form.t) :
  ~ In (HotToast.error (js "Invalid SMILES: " ++ EmptyInput))
       (shown (handleSubmit s f)) /\
  ~ In (HotToast.error EmptyInput) (shown (handleSubmit s f)) /\
  Form.inputError (handleInputChange value f) <> EmptyInput.
Proof.
  assert (E : forall t, string_truthy (trim t) = true -> validateSMILES t <> EmptyInput).
  { intros t T V. rewrite validate_by_content in V. rewrite trim_truthy in T.
    destruct (forallb is_white_space t); [discriminate T|].
    destruct (existsb (fun c => negb (allowed c)) t);
      [vm_compute in V; discriminate V|].
    destruct ((occurrences 91 t =? occurrences 93 t)
              && (occurrences 40 t =? occurrences 41 t))%Z;
      vm_compute in V; discriminate V. }
  unfold handleSubmit, handleInputChange. cbn [Form.inputError].
  repeat split.
  - destruct (backendConnected s); cbn [negb];
      [|intros [H|[]]; vm_compute in H; discriminate H].
    destruct (modelsLoaded s); cbn [negb];
      [|intros [H|[]]; vm_compute in H; discriminate H].
    destruct (string_truthy (trim (Form.smiles f))) eqn:T; cbn [negb];
      [|intros [H|[]]; vm_compute in H; discriminate H].
    destruct (string_truthy (validateSMILES (Form.smiles f))); cbn [shown].
    + intros [H|[]]. injection H as H.
      now apply (E (Form.smiles f) T).
    + intros [H|[]]. discriminate H.
  - destruct (backendConnected s); cbn [negb];
      [|intros [H|[]]; vm_compute in H; discriminate H].
    destruct (modelsLoaded s); cbn [negb];
      [|intros [H|[]]; vm_compute in H; discriminate H].
    destruct (string_truthy (trim (Form.smiles f))) eqn:T; cbn [negb];
      [|intros [H|[]]; vm_compute in H; discriminate H].
    destruct (string_truthy (validateSMILES (Form.smiles f))); cbn [shown].
    + intros [H|[]]. injection H as H. vm_compute in H. discriminate H.
    + intros [H|[]]. discriminate H.
  - destruct (string_truthy (trim value)) eqn:T; [now apply E|].
    intro H. vm_compute in H. discriminate H.
Qed.

(** X5: every submission shows exactly one toast and calls [onPredict] at
    most once; the toast is the success toast exactly when the call is
    made. *)
Theorem submit_shows_one_toast (s : SystemStatus) (f : Form.t) :
  (exists t, shown (handleSubmit s f) = [t] /\
             (t = analyzing <-> onPredict (handleSubmit s f) <> [])) /\
  (List.length (onPredict (handleSubmit s f)) <= 1)%nat.
Proof.
  assert (Refused : forall message,
            (exists t, [HotToast.error message] = [t] /\
                       (t = analyzing <-> @nil jsstring <> [])) /\
            (List.length (@nil jsstring) <= 1)%nat).
  { intros message. split; [|cbn; lia].
    eexists. split; [reflexivity|].
    split; [intro H; discriminate H | intro H; now contradiction H]. }
  unfold handleSubmit.
  destruct (backendConnected s); cbn [negb]; [|apply Refused].
  destruct (modelsLoaded s); cbn [negb]; [|apply Refused].
  destruct (string_truthy (trim (Form.smiles f))); cbn [negb]; [|apply Refused].
  destruct (string_truthy (validateSMILES (Form.smiles f))); [apply Refused|].
  cbn [shown onPredict]. split; [|cbn; lia].
  exists analyzing. split; [reflexivity|].
  split; [intros _; discriminate | reflexivity].
Qed.

(** X6: the error shown under the field always matches the text in the
    field.  This holds at the start and is kept by typing, by clearing and
    by loading any entry of the example table (each of which validates). *)
Theorem error_always_matches_text :
  error_matches_text initial /\
  (forall value f, error_matches_text (handleInputChange value f)) /\
  (forall f, error_matches_text (clearInput f)) /\
  (forall example f, In example exampleMolecules ->
                     error_matches_text (fst (handleExampleClick example f))).
Proof.
  unfold error_matches_text. repeat split; try reflexivity.
  intros example f Hin. cbn [handleExampleClick fst Form.inputError Form.smiles].
  rewrite (@examples_validate example Hin).
  now destruct (string_truthy (trim (Molecule.smiles example))).
Qed.

Lemma error_always_matches_text_witness :
  error_matches_text
    (fst (handleExampleClick
            {| Molecule.name := js "Acetone";
               Molecule.smiles := js "CC(=O)C";
               Molecule.description := js "Ketone compound - contains C=O group";
               Molecule.groups := [js "carbonyl"] |}
            (handleInputChange (js "C;C") initial))).
Proof.
  apply error_always_matches_text. right; left; reflexivity.
Defined.

(** X7: when the error matches the text, an enabled submit button means
    the submission goes through: [onPredict] is called with the text and
    the only toast is the success toast. *)
Theorem enabled_button_submits (isLoading : bool) (s : SystemStatus) (f : Form.t) :
  error_matches_text f ->
  submit_disabled isLoading s f = false ->
  handleSubmit s f = {| shown := [analyzing]; onPredict := [Form.smiles f] |}.
Proof.
  unfold error_matches_text, submit_disabled. intros M D.
  apply orb_false_iff in D. destruct D as [D Dr].
  apply orb_false_iff in D. destruct D as [D De].
  apply orb_false_iff in D. destruct D as [_ Dt].
  apply negb_false_iff in Dr, Dt. rewrite Dt in M.
  apply handleSubmit_valid; [exact Dr|].
  rewrite <- M. now destruct (Form.inputError f).
Qed.

Lemma enabled_button_submits_witness :
  handleSubmit (systemStatus state_showing) (handleInputChange (js "CCO") initial)
  = {| shown := [analyzing]; onPredict := [js "CCO"] |}.
Proof.
  apply (@enabled_button_submits false); reflexivity.
Defined.

(** X8: every entry of the example table can be run as it is: loading it
    and submitting, with the system ready, calls [onPredict] with exactly
    the entry's notation, whatever was in the form before. *)
Theorem example_click_then_submit (example : Molecule.t) (s : SystemStatus)
        (f : Form.t) :
  In example exampleMolecules -> isSystemReady s = true ->
  handleSubmit s (fst (handleExampleClick example f))
  = {| shown := [analyzing]; onPredict := [Molecule.smiles example] |}.
Proof.
  intros Hin R.
  apply (@handleSubmit_valid s (fst (handleExampleClick example f)) R).
  now apply examples_validate.
Qed.

Lemma example_click_then_submit_witness :
  onPredict
    (handleSubmit (systemStatus state_showing)
       (fst (handleExampleClick
               {| Molecule.name := js "Caffeine";
                  Molecule.smiles := js "CN1C=NC2=C1C(=O)N(C(=O)N2C)C";
                  Molecule.description :=
                    js "Complex alkaloid - multiple functional groups";
                  Molecule.groups := [js "carbonyl"; js "amine"] |}
               (handleInputChange (js "C;C") initial))))
  = [js "CN1C=NC2=C1C(=O)N(C(=O)N2C)C"].
Proof.
  rewrite example_click_then_submit; [reflexivity | | reflexivity].
  do 16 right. left. reflexivity.
Defined.

(** X9: for every status exactly one banner is on the predictor view, and
    it says what the status line of the form says; both announce a ready
    system exactly when the form and the request handler let a request
    through. *)
Theorem one_banner_matching_status_text (s : SystemStatus) :
  (exists b, AppShell.banners s = [b] /\
     (b = AppShell.BackendDisconnected <->
        getSystemStatusText s = js "Backend Disconnected") /\
     (b = AppShell.ModelsNotLoaded <->
        getSystemStatusText s = js "Models Not Loaded") /\
     (b = AppShell.SystemReady <-> getSystemStatusText s = js "System Ready")) /\
  (getSystemStatusText s = js "System Ready" <-> isSystemReady s = true).
Proof.
  unfold AppShell.banners, getSystemStatusText, isSystemReady.
  destruct (backendConnected s), (modelsLoaded s); cbn [negb andb app];
    (split; [eexists; split; [reflexivity|]|]);
    repeat split; intro H; try reflexivity; try discriminate H;
    vm_compute in H; discriminate H.
Qed.

(* ================================================================== *)
(** ** The request handler on its other paths                           *)
(* ================================================================== *)

Module HandlerFacts.
Import JS App AppVocabulary AppFacts MoleculeInputForm MoreVocabulary.

(** The three ways the handler ends once the request has yielded a
    prediction. *)
Lemma handlePrediction_no_groups (E : Engine) (w : World) (smiles : jsstring)
      (st : State) (p : Prediction) :
  ready st -> requestPrediction E w smiles = Normal p ->
  truthy (hasGroups p) = false ->
  handlePrediction E w smiles st
  = {| predictionData := Some p; isLoading := false;
       systemStatus := systemStatus st;
       totalPredictions := (totalPredictions st + 1)%float;
       toasts := toasts st ++ [success_no_groups];
       console := console st |}.
Proof.
  intros [Hb Hm] H G. unfold handlePrediction.
  cbn [setIsLoading systemStatus]. rewrite Hb, Hm, H, G. reflexivity.
Qed.

Lemma handlePrediction_found (E : Engine) (w : World) (smiles : jsstring)
      (st : State) (p : Prediction) (text : jsstring) :
  ready st -> requestPrediction E w smiles = Normal p ->
  truthy (hasGroups p) = true -> ToString E (totalDetected p) = Normal text ->
  handlePrediction E w smiles st
  = {| predictionData := Some p; isLoading := false;
       systemStatus := systemStatus st;
       totalPredictions := (totalPredictions st + 1)%float;
       toasts := toasts st ++ [success_found_groups text];
       console := console st |}.
Proof.
  intros [Hb Hm] H G T. unfold handlePrediction.
  cbn [setIsLoading systemStatus]. rewrite Hb, Hm, H, G, T. reflexivity.
Qed.

Lemma handlePrediction_unconvertible (E : Engine) (w : World) (smiles : jsstring)
      (st : State) (p : Prediction) (e : exn) :
  ready st -> requestPrediction E w smiles = Normal p ->
  truthy (hasGroups p) = true -> ToString E (totalDetected p) = Throw e ->
  handlePrediction E w smiles st
  = {| predictionData := None; isLoading := false;
       systemStatus := systemStatus st;
       totalPredictions := (totalPredictions st + 1)%float;
       toasts := toasts st ++ [error_prediction_failed e];
       console := console st ++ [e] |}.
Proof.
  intros [Hb Hm] H G T. unfold handlePrediction.
  cbn [setIsLoading systemStatus]. rewrite Hb, Hm, H, G, T. reflexivity.
Qed.

Lemma handlePrediction_not_ready (E : Engine) (w : World) (smiles : jsstring)
      (st : State) :
  isSystemReady (systemStatus st) = false ->
  handlePrediction E w smiles st
  = toast (if backendConnected (systemStatus st)
           then error_models_not_loaded else error_backend_not_connected) st.
Proof.
  unfold isSystemReady, handlePrediction.
  destruct (backendConnected (systemStatus st)); cbn [negb andb]; [|reflexivity].
  now intros ->.
Qed.

Lemma ready_iff st : ready st <-> isSystemReady (systemStatus st) = true.
Proof. unfold ready, isSystemReady. symmetry. apply andb_true_iff. Qed.

End HandlerFacts.

Import HandlerFacts.

(** X10: with the backend disconnected or the models not loaded the
    handler makes no request: whatever the backend would have answered, it
    only adds the notification of the guard that stopped it -- "backend
    not connected" when the backend is disconnected, "models not loaded"
    when it is connected without models -- and leaves the displayed
    prediction, the loading flag, the counter and the log as they were. *)
Theorem unready_handler_makes_no_request (E : Engine) (w w' : World)
        (smiles : jsstring) (st : State) :
  isSystemReady (systemStatus st) = false ->
  handlePrediction E w smiles st = handlePrediction E w' smiles st /\
  toasts (handlePrediction E w smiles st)
  = toasts st ++ [if backendConnected (systemStatus st)
                  then error_models_not_loaded
                  else error_backend_not_connected] /\
  predictionData (handlePrediction E w smiles st) = predictionData st /\
  isLoading (handlePrediction E w smiles st) = isLoading st /\
  totalPredictions (handlePrediction E w smiles st) = totalPredictions st /\
  console (handlePrediction E w smiles st) = console st.
Proof.
  intros N. rewrite !(@handlePrediction_not_ready E _ smiles st N).
  repeat split.
Qed.

(** Connected without models, and disconnected. *)
Lemma unready_handler_makes_no_request_witness :
  (isSystemReady {| backendConnected := true; modelsLoaded := false;
                    datasetLoaded := false |} = false /\
   isSystemReady {| backendConnected := false; modelsLoaded := true;
                    datasetLoaded := false |} = false) /\
  forall E,
    predictionData
      (handlePrediction E (world_answering 0 30 true response_example) (js "CCO")
         {| predictionData := Some Examples.shown; isLoading := false;
            systemStatus := {| backendConnected := true; modelsLoaded := false;
                               datasetLoaded := false |};
            totalPredictions := 1; toasts := []; console := [] |})
    = Some Examples.shown /\
    toasts
      (handlePrediction E (world_answering 0 30 true response_example) (js "CCO")
         {| predictionData := Some Examples.shown; isLoading := false;
            systemStatus := {| backendConnected := true; modelsLoaded := false;
                               datasetLoaded := false |};
            totalPredictions := 1; toasts := []; console := [] |})
    = [error_models_not_loaded] /\
    toasts
      (handlePrediction E (world_answering 0 30 true response_example) (js "CCO")
         {| predictionData := None; isLoading := false;
            systemStatus := {| backendConnected := false; modelsLoaded := true;
                               datasetLoaded := false |};
            totalPredictions := 1; toasts := []; console := [] |})
    = [error_backend_not_connected].
Proof.
  split; [split; reflexivity|]. intros E. split; [|split].
  - refine (proj1 (proj2 (proj2
              (@unready_handler_makes_no_request E _ world_offline _ _ _)))).
    reflexivity.
  - refine (proj1 (proj2
              (@unready_handler_makes_no_request E _ world_offline _ _ _))).
    reflexivity.
  - refine (proj1 (proj2
              (@unready_handler_makes_no_request E _ world_offline _ _ _))).
    reflexivity.
Defined.

(** X11: once the request has yielded a prediction, the prediction counter
    goes up by one and the loading flag ends cleared, and the rest depends
    on the success toast.  With a falsy [hasGroups], or with a
    [totalDetected] that converts to a string, the prediction replaces
    whatever was on display, nothing is logged and the one notification
    added is the success toast ("no groups", or the converted count).  With
    a truthy [hasGroups] and a [totalDetected] that cannot be converted,
    the toast's template literal throws inside the [try] block: the
    display ends empty, the error is logged and notified, and the counter
    keeps its increment.  Numbers, strings, booleans and [null] always
    convert. *)
Theorem successful_request_replaces_prediction (E : Engine) (w : World)
        (smiles : jsstring) (st : State) (p : Prediction) :
  ready st -> requestPrediction E w smiles = Normal p ->
  (totalPredictions (handlePrediction E w smiles st) = (totalPredictions st + 1)%float /\
   isLoading (handlePrediction E w smiles st) = false) /\
  (truthy (hasGroups p) = false ->
     predictionData (handlePrediction E w smiles st) = Some p /\
     toasts (handlePrediction E w smiles st) = toasts st ++ [success_no_groups] /\
     console (handlePrediction E w smiles st) = console st) /\
  (forall text,
     truthy (hasGroups p) = true -> ToString E (totalDetected p) = Normal text ->
     predictionData (handlePrediction E w smiles st) = Some p /\
     toasts (handlePrediction E w smiles st) = toasts st ++ [success_found_groups text] /\
     console (handlePrediction E w smiles st) = console st) /\
  (forall e,
     truthy (hasGroups p) = true -> ToString E (totalDetected p) = Throw e ->
     predictionData (handlePrediction E w smiles st) = None /\
     toasts (handlePrediction E w smiles st) = toasts st ++ [error_prediction_failed e] /\
     console (handlePrediction E w smiles st) = console st ++ [e]) /\
  (forall v, match v with VArr _ | VObj _ => True
                     | _ => exists text, ToString E v = Normal text end).
Proof.
  intros R H. split; [|split; [|split; [|split]]].
  - destruct (truthy (hasGroups p)) eqn:G.
    + destruct (ToString E (totalDetected p)) as [text|e] eqn:T.
      * now rewrite (@handlePrediction_found E w smiles st p text R H G T).
      * now rewrite (@handlePrediction_unconvertible E w smiles st p e R H G T).
    + now rewrite (@handlePrediction_no_groups E w smiles st p R H G).
  - intros G. now rewrite (@handlePrediction_no_groups E w smiles st p R H G).
  - intros text G T. now rewrite (@handlePrediction_found E w smiles st p text R H G T).
  - intros e G T. now rewrite (@handlePrediction_unconvertible E w smiles st p e R H G T).
  - intros [| |b|x|t|l|props]; try exact I; eexists; reflexivity.
Qed.

(** A count of 5 is announced; a count that cannot be converted empties the
    display and is counted all the same. *)
Lemma successful_request_replaces_prediction_witness :
  ready state_showing /\
  (forall E, exists p,
     predictionData
       (handlePrediction E (world_answering 0 30 true response_miscounted) (js "CCO")
                         state_showing) = Some p /\
     smiles p = VStr (js "CCO") /\
     toasts (handlePrediction E (world_answering 0 30 true response_miscounted)
                              (js "CCO") state_showing)
     = [success_found_groups (Number_toString E 5)]) /\
  (forall E,
     predictionData
       (handlePrediction E (world_answering 0 30 true response_unconvertible) (js "CCO")
                         state_showing) = None /\
     toasts (handlePrediction E (world_answering 0 30 true response_unconvertible)
                              (js "CCO") state_showing)
     = [error_prediction_failed TypeError] /\
     totalPredictions
       (handlePrediction E (world_answering 0 30 true response_unconvertible) (js "CCO")
                         state_showing) = (1 + 1)%float).
Proof.
  assert (R : ready state_showing) by (split; reflexivity).
  split; [exact R|]. split; intros E.
  - assert (T : requestPrediction E (world_answering 0 30 true response_miscounted)
                                  (js "CCO")
                = Normal (built response_miscounted (map (group_of E) groups_example)))
      by reflexivity.
    destruct (proj1 (proj2 (proj2
                (@successful_request_replaces_prediction E _ _ _ _ R T)))
                (Number_toString E 5) eq_refl eq_refl) as (Hp & Ht & _).
    eexists. split; [exact Hp|]. split; [reflexivity | exact Ht].
  - assert (T : requestPrediction E (world_answering 0 30 true response_unconvertible)
                                  (js "CCO")
                = Normal (built response_unconvertible (map (group_of E) groups_example)))
      by reflexivity.
    destruct (@successful_request_replaces_prediction E _ _ _ _ R T)
      as ((Hc & _) & _ & _ & Hu & _).
    destruct (Hu TypeError eq_refl eq_refl) as (Hp & Ht & _).
    repeat split; assumption.
Defined.

(** X12: on every path the handler adds exactly one notification after
    those already shown and leaves the system status alone; it never ends
    with the loading flag set unless it was set and a guard stopped the
    call; the counter changes only when the request yielded a prediction;
    and, past the guards, a prediction on display at the end is the one
    the request yielded, and it has been counted. *)
Theorem handler_invariants (E : Engine) (w : World) (smiles : jsstring)
        (st : State) :
  (exists t, toasts (handlePrediction E w smiles st) = toasts st ++ [t]) /\
  systemStatus (handlePrediction E w smiles st) = systemStatus st /\
  (isLoading (handlePrediction E w smiles st) = true ->
     isLoading st = true /\ isSystemReady (systemStatus st) = false) /\
  (totalPredictions (handlePrediction E w smiles st) <> totalPredictions st ->
     exists p, requestPrediction E w smiles = Normal p) /\
  (ready st ->
   forall p, predictionData (handlePrediction E w smiles st) = Some p ->
     requestPrediction E w smiles = Normal p /\
     totalPredictions (handlePrediction E w smiles st)
     = (totalPredictions st + 1)%float).
Proof.
  destruct (isSystemReady (systemStatus st)) eqn:R.
  - apply ready_iff in R.
    destruct (requestPrediction E w smiles) as [p|e] eqn:Q.
    + assert (Done : exists t d c,
                handlePrediction E w smiles st
                = {| predictionData := d; isLoading := false;
                     systemStatus := systemStatus st;
                     totalPredictions := (totalPredictions st + 1)%float;
                     toasts := toasts st ++ [t]; console := c |}
                /\ (d = Some p \/ d = None)).
      { destruct (truthy (hasGroups p)) eqn:G.
        - destruct (ToString E (totalDetected p)) as [text|e] eqn:T.
          + rewrite (@handlePrediction_found E w smiles st p text R Q G T).
            do 3 eexists. split; [reflexivity | now left].
          + rewrite (@handlePrediction_unconvertible E w smiles st p e R Q G T).
            do 3 eexists. split; [reflexivity | now right].
        - rewrite (@handlePrediction_no_groups E w smiles st p R Q G).
          do 3 eexists. split; [reflexivity | now left]. }
      destruct Done as (t & d & c & -> & D).
      cbn [toasts systemStatus isLoading totalPredictions predictionData].
      split; [now exists t|]. split; [reflexivity|].
      split; [intros L; discriminate L|].
      split; [intros _; now exists p|].
      intros _ p' Hp. destruct D as [-> | ->]; [|discriminate Hp].
      injection Hp as <-. split; reflexivity.
    + rewrite (@handlePrediction_on_throw E w smiles st e R Q).
      cbn [toasts systemStatus isLoading totalPredictions predictionData].
      split; [eexists; reflexivity|]. split; [reflexivity|].
      split; [intros L; discriminate L|].
      split; [intros H; now contradiction H|].
      intros _ p' Hp. discriminate Hp.
  - rewrite (@handlePrediction_not_ready E w smiles st R).
    cbn [toast toasts systemStatus isLoading totalPredictions predictionData].
    split; [eexists; reflexivity|]. split; [reflexivity|].
    split; [intros L; now split|].
    split; [intros H; now contradiction H|].
    intros R'. apply ready_iff in R'. congruence.
Qed.

(** A successful request from a state with one prediction counted. *)
Lemma handler_invariants_witness :
  ready state_showing /\
  forall E,
    requestPrediction E (world_answering 0 30 true response_example) (js "CCO")
    = Normal (built response_example (map (group_of E) groups_example)) /\
    totalPredictions
      (handlePrediction E (world_answering 0 30 true response_example) (js "CCO")
                        state_showing) = (1 + 1)%float.
Proof.
  assert (R : ready state_showing) by (split; reflexivity).
  split; [exact R|]. intros E.
  apply (proj2 (proj2 (proj2 (proj2
           (handler_invariants E (world_answering 0 30 true response_example)
                               (js "CCO") state_showing)))) R).
  reflexivity.
Defined.

(** X13: what the form passes on is what is requested.  Called with an
    argument of [onPredict] and the status the form was given, the handler
    is never stopped by its own guards: it requests a prediction for the
    text in the field.  If the request fails, nothing is on display and
    the failure is notified.  If it yields a prediction, that prediction is
    on display with its success toast, unless the toast's text cannot be
    made, in which case nothing is on display and that error is
    notified. *)
Theorem submitted_text_is_requested (E : Engine) (w : World) (f : Form.t)
        (st : State) (arg : jsstring) :
  In arg (onPredict (handleSubmit (systemStatus st) f)) ->
  match requestPrediction E w (Form.smiles f) with
  | Normal p =>
      if truthy (hasGroups p) then
        match ToString E (totalDetected p) with
        | Normal text =>
            predictionData (handlePrediction E w arg st) = Some p /\
            toasts (handlePrediction E w arg st)
            = toasts st ++ [success_found_groups text]
        | Throw e =>
            predictionData (handlePrediction E w arg st) = None /\
            toasts (handlePrediction E w arg st)
            = toasts st ++ [error_prediction_failed e]
        end
      else
        predictionData (handlePrediction E w arg st) = Some p /\
        toasts (handlePrediction E w arg st) = toasts st ++ [success_no_groups]
  | Throw e =>
      predictionData (handlePrediction E w arg st) = None /\
      toasts (handlePrediction E w arg st) = toasts st ++ [error_prediction_failed e]
  end.
Proof.
  intros Hin. apply handleSubmit_calls in Hin. destruct Hin as (R & _ & ->).
  apply ready_iff in R.
  destruct (requestPrediction E w (Form.smiles f)) as [p|e] eqn:Q.
  - destruct (truthy (hasGroups p)) eqn:G.
    + destruct (ToString E (totalDetected p)) as [text|e] eqn:T.
      * now rewrite (@handlePrediction_found E w _ st p text R Q G T).
      * now rewrite (@handlePrediction_unconvertible E w _ st p e R Q G T).
    + now rewrite (@handlePrediction_no_groups E w _ st p R Q G).
  - now rewrite (@handlePrediction_on_throw E w _ st e R Q).
Qed.

Lemma submitted_text_is_requested_witness :
  In (js "CCO")
     (onPredict (handleSubmit (systemStatus state_showing)
                              (handleInputChange (js "CCO") initial))) /\
  forall E,
    predictionData
      (handlePrediction E (world_answering 0 30 true response_example) (js "CCO")
                        state_showing)
    = Some (built response_example (map (group_of E) groups_example)).
Proof.
  assert (I : In (js "CCO")
                 (onPredict (handleSubmit (systemStatus state_showing)
                                          (handleInputChange (js "CCO") initial))))
    by (left; reflexivity).
  split; [exact I|]. intros E.
  exact (proj1 (@submitted_text_is_requested E
                  (world_answering 0 30 true response_example)
                  (handleInputChange (js "CCO") initial) state_showing (js "CCO") I)).
Defined.

(* ================================================================== *)
(** ** Start-up: the health check and the statistics                    *)
(* ================================================================== *)

Module ShellFacts.
Import JS App AppVocabulary MoleculeInputForm MoreVocabulary.

Lemma checkBackendStatus_no_body o sh :
  no_body o ->
  exists e, AppShell.checkBackendStatus o sh
            = {| AppShell.systemStatus := AppShell.initialStatus;
                 AppShell.modelStats := AppShell.modelStats sh;
                 AppShell.shown := AppShell.shown sh ++ [connection_failed];
                 AppShell.logged := AppShell.logged sh ++ [e] |}.
Proof.
  intros [[e ->]|[[e ->]|(data & -> & N)]].
  - exists e. reflexivity.
  - exists e. reflexivity.
  - exists TypeError. unfold AppShell.checkBackendStatus, get. cbn [bind].
    rewrite N. reflexivity.
Qed.

Lemma checkBackendStatus_body data sh :
  nullish data = false ->
  AppShell.checkBackendStatus (Responded true (Normal data)) sh
  = {| AppShell.systemStatus :=
         {| Status.backendConnected := VBool true;
            Status.modelsLoaded := field data "models_loaded";
            Status.datasetLoaded := field data "dataset_loaded" |};
       AppShell.modelStats := AppShell.modelStats sh;
       AppShell.shown :=
         AppShell.shown sh
         ++ [if truthy (field data "models_loaded")
             then HotToast.success ([55358; 56598]%N ++ js " ML Models loaded successfully")
             else HotToast.error (10060%N :: js " ML Models failed to load")];
       AppShell.logged := AppShell.logged sh |}.
Proof.
  intros N. unfold AppShell.checkBackendStatus, get, field. cbn [bind].
  rewrite N. cbn [bind].
  now destruct (truthy (member data (js "models_loaded"))).
Qed.

(** Every way a request can end. *)
Lemma outcome_cases (o : FetchOutcome) :
  no_body o \/ (exists json, o = Responded false json) \/
  (exists data, o = Responded true (Normal data) /\ nullish data = false).
Proof.
  destruct o as [e|[|] [data|e]].
  - left. left. now exists e.
  - destruct (nullish data) eqn:N.
    + left. right. right. now exists data.
    + right. right. now exists data.
  - left. right. left. now exists e.
  - right. left. now eexists.
  - right. left. now eexists.
Qed.

End ShellFacts.

Import ShellFacts.

(** X14: the stored status never reports the models or the dataset loaded
    while reporting the backend disconnected: this holds at the start, and
    every health check, however it ends, keeps it; loading the statistics
    does not touch the status. *)
Theorem status_stays_coherent :
  coherent AppShell.initialStatus /\
  (forall o sh, coherent (AppShell.systemStatus sh) ->
                coherent (AppShell.systemStatus (AppShell.checkBackendStatus o sh))) /\
  (forall o sh, AppShell.systemStatus (AppShell.loadSystemStats o sh)
                = AppShell.systemStatus sh).
Proof.
  split; [split; discriminate|]. split.
  - intros o sh C.
    destruct (outcome_cases o) as [N|[[json ->]|(data & -> & N)]].
    + destruct (@checkBackendStatus_no_body o sh N) as [e ->].
      split; discriminate.
    + exact C.
    + rewrite (@checkBackendStatus_body data sh N). split; reflexivity.
  - intros o sh. unfold AppShell.loadSystemStats.
    destruct o as [e|[|] [data|e]]; reflexivity.
Qed.

(** X15: how a health check ends decides what happens to the status.  A
    response that is not OK changes nothing and shows nothing, so a status
    of "connected" survives it.  A rejected request, an unreadable body or
    a [null] body resets all three flags to false, logs the error and
    shows the connection-failed toast.  Any other body marks the backend
    connected, stores its two flags as they are, logs nothing, and shows
    one toast: success exactly when [models_loaded] is truthy. *)
Theorem health_check_outcomes (sh : AppShell.Shell) :
  (forall json, AppShell.checkBackendStatus (Responded false json) sh = sh) /\
  (forall o, no_body o ->
     AppShell.systemStatus (AppShell.checkBackendStatus o sh) = AppShell.initialStatus /\
     AppShell.shown (AppShell.checkBackendStatus o sh)
     = AppShell.shown sh ++ [connection_failed] /\
     exists e, AppShell.logged (AppShell.checkBackendStatus o sh)
               = AppShell.logged sh ++ [e]) /\
  (forall data, nullish data = false ->
     AppShell.systemStatus (AppShell.checkBackendStatus (Responded true (Normal data)) sh)
     = {| Status.backendConnected := VBool true;
          Status.modelsLoaded := field data "models_loaded";
          Status.datasetLoaded := field data "dataset_loaded" |} /\
     AppShell.logged (AppShell.checkBackendStatus (Responded true (Normal data)) sh)
     = AppShell.logged sh /\
     exists t,
       AppShell.shown (AppShell.checkBackendStatus (Responded true (Normal data)) sh)
       = AppShell.shown sh ++ [t] /\
       is_success t = truthy (field data "models_loaded")).
Proof.
  split; [reflexivity|]. split.
  - intros o N. destruct (@checkBackendStatus_no_body o sh N) as [e ->].
    repeat split. now exists e.
  - intros data N. rewrite (@checkBackendStatus_body data sh N).
    repeat split. eexists. split; [reflexivity|].
    now destruct (truthy (field data "models_loaded")).
Qed.

(** X16: after the first health check the system is ready -- the form
    submits and the handler requests -- exactly when the check got an OK
    response whose body has a truthy [models_loaded]. *)
Theorem ready_after_first_check (o : FetchOutcome) (stats : ModelStats.t)
        (toasts : list HotToast.t) (errors : list exn) :
  isSystemReady
    (AppShell.observed
       (AppShell.systemStatus
          (AppShell.checkBackendStatus o
             {| AppShell.systemStatus := AppShell.initialStatus;
                AppShell.modelStats := stats;
                AppShell.shown := toasts;
                AppShell.logged := errors |}))) = true
  <-> exists data, o = Responded true (Normal data) /\
                   truthy (field data "models_loaded") = true.
Proof.
  destruct (outcome_cases o) as [N|[[json ->]|(data & -> & N)]].
  - destruct (@checkBackendStatus_no_body o
                {| AppShell.systemStatus := AppShell.initialStatus;
                   AppShell.modelStats := stats;
                   AppShell.shown := toasts;
                   AppShell.logged := errors |} N) as [e ->].
    split; [discriminate|].
    intros (data & -> & T). exfalso.
    destruct N as [[e' N]|[[e' N]|(data' & N & Z)]]; try discriminate N.
    injection N as <-. destruct data; discriminate.
  - split; [discriminate|]. intros (data & D & _). discriminate D.
  - rewrite (@checkBackendStatus_body data _ N).
    unfold isSystemReady, AppShell.observed.
    cbn [AppShell.systemStatus backendConnected modelsLoaded
         Status.backendConnected Status.modelsLoaded truthy andb].
    split.
    + intros T. now exists data.
    + intros (data' & D & T). injection D as <-. exact T.
Qed.

Lemma status_stays_coherent_witness :
  coherent
    (AppShell.systemStatus
       (AppShell.checkBackendStatus (Rejected TypeError)
          (AppShell.checkBackendStatus
             (Responded true
                (Normal (VObj [(js "models_loaded", VBool true);
                               (js "dataset_loaded", VBool true)])))
             {| AppShell.systemStatus := AppShell.initialStatus;
                AppShell.modelStats := AppShell.initialStats;
                AppShell.shown := []; AppShell.logged := [] |}))).
Proof.
  apply status_stays_coherent. apply status_stays_coherent.
  apply status_stays_coherent.
Defined.

(** A connected status survives a response that is not OK, and is reset by
    a rejected request. *)
Lemma health_check_outcomes_witness :
  no_body (Rejected TypeError) /\
  forall stats toasts errors,
    let connected :=
      {| AppShell.systemStatus :=
           {| Status.backendConnected := VBool true;
              Status.modelsLoaded := VBool true;
              Status.datasetLoaded := VBool true |};
         AppShell.modelStats := stats;
         AppShell.shown := toasts; AppShell.logged := errors |} in
    AppShell.checkBackendStatus (Responded false (Throw SyntaxError)) connected
    = connected /\
    AppShell.systemStatus (AppShell.checkBackendStatus (Rejected TypeError) connected)
    = AppShell.initialStatus.
Proof.
  assert (N : no_body (Rejected TypeError)) by (left; now exists TypeError).
  split; [exact N|]. intros stats toasts errors connected. split.
  - apply (proj1 (health_check_outcomes connected)).
  - apply (proj1 (proj2 (health_check_outcomes connected)) _ N).
Defined.

(** X17: what loading the statistics does, up to the next render.  The
    render fails exactly when the response is OK with a [null] body: the
    handler's [catch] block has logged nothing, and the queued update
    throws a [TypeError] when React runs it.  In every other case the
    render goes through with the fixed statistics, the status and the
    toasts untouched.  After an OK response with a body,
    [embeddingDimensions] is truthy and [totalMolecules] is truthy or the
    number 0, so a missing [dataset_stats], a missing entry or a reported 0
    all end as 64 dimensions and 0 molecules, and nothing is logged.  After
    any other response the statistics are exactly as they were. *)
Theorem stats_load_defaults (o : FetchOutcome) (sh : AppShell.Shell) :
  let r := AppShell.render (AppShell.loadSystemStats_queued o)
                           (AppShell.loadSystemStats o sh) in
  let m := AppShell.modelStats sh in
  ((exists e, r = AppShell.RenderError e) <->
   (exists data, o = Responded true (Normal data) /\ nullish data = true)) /\
  (forall e, r = AppShell.RenderError e ->
     e = TypeError /\
     AppShell.logged (AppShell.loadSystemStats o sh) = AppShell.logged sh) /\
  (forall sh', r = AppShell.Rendered sh' ->
     let m' := AppShell.modelStats sh' in
     (ModelStats.totalPredictions m' = ModelStats.totalPredictions m /\
      ModelStats.accuracy m' = ModelStats.accuracy m /\
      ModelStats.modelsCompared m' = ModelStats.modelsCompared m /\
      ModelStats.functionalGroups m' = ModelStats.functionalGroups m /\
      ModelStats.level1Accuracy m' = ModelStats.level1Accuracy m /\
      ModelStats.level2Accuracy m' = ModelStats.level2Accuracy m /\
      AppShell.shown sh' = AppShell.shown sh /\
      AppShell.systemStatus sh' = AppShell.systemStatus sh) /\
     (forall data, o = Responded true (Normal data) ->
        truthy (ModelStats.embeddingDimensions m') = true /\
        (truthy (ModelStats.totalMolecules m') = true \/
         ModelStats.totalMolecules m' = VNum 0) /\
        (truthy (field (field data "dataset_stats") "total_molecules") = false ->
         ModelStats.totalMolecules m' = VNum 0) /\
        (truthy (field (field data "dataset_stats") "embedding_dimensions") = false ->
         ModelStats.embeddingDimensions m' = VNum 64) /\
        AppShell.logged sh' = AppShell.logged sh) /\
     ((forall data, o <> Responded true (Normal data)) -> m' = m)).
Proof.
  cbv zeta.
  assert (Other : forall sh0 : AppShell.Shell,
            AppShell.modelStats sh0 = AppShell.modelStats sh ->
            AppShell.shown sh0 = AppShell.shown sh ->
            AppShell.systemStatus sh0 = AppShell.systemStatus sh ->
            (forall data, o <> Responded true (Normal data)) ->
            ((exists e, AppShell.Rendered sh0 = AppShell.RenderError e) <->
             (exists data, o = Responded true (Normal data) /\ nullish data = true)) /\
            (forall e, AppShell.Rendered sh0 = AppShell.RenderError e ->
               e = TypeError /\ AppShell.logged sh0 = AppShell.logged sh) /\
            (forall sh', AppShell.Rendered sh0 = AppShell.Rendered sh' ->
               (ModelStats.totalPredictions (AppShell.modelStats sh')
                = ModelStats.totalPredictions (AppShell.modelStats sh) /\
                ModelStats.accuracy (AppShell.modelStats sh')
                = ModelStats.accuracy (AppShell.modelStats sh) /\
                ModelStats.modelsCompared (AppShell.modelStats sh')
                = ModelStats.modelsCompared (AppShell.modelStats sh) /\
                ModelStats.functionalGroups (AppShell.modelStats sh')
                = ModelStats.functionalGroups (AppShell.modelStats sh) /\
                ModelStats.level1Accuracy (AppShell.modelStats sh')
                = ModelStats.level1Accuracy (AppShell.modelStats sh) /\
                ModelStats.level2Accuracy (AppShell.modelStats sh')
                = ModelStats.level2Accuracy (AppShell.modelStats sh) /\
                AppShell.shown sh' = AppShell.shown sh /\
                AppShell.systemStatus sh' = AppShell.systemStatus sh) /\
               (forall data, o = Responded true (Normal data) ->
                  truthy (ModelStats.embeddingDimensions (AppShell.modelStats sh')) = true /\
                  (truthy (ModelStats.totalMolecules (AppShell.modelStats sh')) = true \/
                   ModelStats.totalMolecules (AppShell.modelStats sh') = VNum 0) /\
                  (truthy (field (field data "dataset_stats") "total_molecules") = false ->
                   ModelStats.totalMolecules (AppShell.modelStats sh') = VNum 0) /\
                  (truthy (field (field data "dataset_stats") "embedding_dimensions") = false ->
                   ModelStats.embeddingDimensions (AppShell.modelStats sh') = VNum 64) /\
                  AppShell.logged sh' = AppShell.logged sh) /\
               ((forall data, o <> Responded true (Normal data)) ->
                AppShell.modelStats sh' = AppShell.modelStats sh))).
  { intros sh0 Hm Hs Ht No. split; [|split].
    - split; [intros [e H]; discriminate H|].
      intros (data & D & _). now contradiction (No data).
    - intros e H. discriminate H.
    - intros sh' H. injection H as <-. rewrite Hm, Hs, Ht.
      split; [repeat split|]. split; [|intros _; reflexivity].
      intros data D. now contradiction (No data). }
  destruct o as [e|[|] [data|e]];
    try (apply Other; try reflexivity; intros data' D; discriminate D).
  unfold AppShell.render, AppShell.loadSystemStats_queued,
    AppShell.loadSystemStats, AppShell.statsUpdate, get, field.
  cbn [bind]. destruct (nullish data) eqn:N; cbn [bind].
  - split; [|split].
    + split; [intros _; now exists data | intros _; now exists TypeError].
    + intros e H. injection H as <-. split; reflexivity.
    + intros sh' H. discriminate H.
  - assert (O : forall p, AppShell.optional_member (member data (js "dataset_stats")) p
                          = member (member data (js "dataset_stats")) p).
    { intros p. unfold AppShell.optional_member.
      now destruct (member data (js "dataset_stats")). }
    rewrite !O. split; [|split].
    + split; [intros [e H]; discriminate H|].
      intros (data' & D & N'). injection D as <-. congruence.
    + intros e H. discriminate H.
    + intros sh' H. injection H as <-.
      cbn [AppShell.setModelStats AppShell.modelStats AppShell.shown
           AppShell.systemStatus AppShell.logged
           ModelStats.totalPredictions ModelStats.accuracy
           ModelStats.modelsCompared ModelStats.functionalGroups
           ModelStats.level1Accuracy ModelStats.level2Accuracy
           ModelStats.totalMolecules ModelStats.embeddingDimensions].
      split; [repeat split|]. split.
      * intros data' D. injection D as <-. unfold or_else.
        split; [|split; [|split; [|split]]].
        -- now destruct (truthy (member (member data (js "dataset_stats"))
                                        (js "embedding_dimensions"))) eqn:T.
        -- destruct (truthy (member (member data (js "dataset_stats"))
                                    (js "total_molecules"))) eqn:T; auto.
        -- now intros ->.
        -- now intros ->.
        -- reflexivity.
      * intros No. now contradiction (No data).
Qed.

(** A body without [dataset_stats], a rejected request, and a [null]
    body. *)
Lemma stats_load_defaults_witness :
  (let sh := {| AppShell.systemStatus := AppShell.initialStatus;
                AppShell.modelStats := AppShell.initialStats;
                AppShell.shown := []; AppShell.logged := [] |} in
   exists sh',
     AppShell.render (AppShell.loadSystemStats_queued (Responded true (Normal (VObj []))))
                     (AppShell.loadSystemStats (Responded true (Normal (VObj []))) sh)
     = AppShell.Rendered sh' /\
     ModelStats.totalMolecules (AppShell.modelStats sh') = VNum 0 /\
     ModelStats.embeddingDimensions (AppShell.modelStats sh') = VNum 64) /\
  (let sh := {| AppShell.systemStatus := AppShell.initialStatus;
                AppShell.modelStats := AppShell.initialStats;
                AppShell.shown := []; AppShell.logged := [] |} in
   exists e,
     AppShell.render (AppShell.loadSystemStats_queued (Responded true (Normal VNull)))
                     (AppShell.loadSystemStats (Responded true (Normal VNull)) sh)
     = AppShell.RenderError e).
Proof.
  split; cbv zeta.
  - eexists. split; [reflexivity|].
    destruct (proj1 (proj2 (proj2 (proj2 (stats_load_defaults
                (Responded true (Normal (VObj [])))
                {| AppShell.systemStatus := AppShell.initialStatus;
                   AppShell.modelStats := AppShell.initialStats;
                   AppShell.shown := []; AppShell.logged := [] |}))
                _ eq_refl))
              (VObj []) eq_refl) as (_ & _ & Ht & Hd & _).
    split; [apply Ht | apply Hd]; reflexivity.
  - apply (proj2 (proj1 (stats_load_defaults
                           (Responded true (Normal VNull))
                           {| AppShell.systemStatus := AppShell.initialStatus;
                              AppShell.modelStats := AppShell.initialStats;
                              AppShell.shown := []; AppShell.logged := [] |}))).
    exists VNull. split; reflexivity.
Defined.

(* ================================================================== *)
(** ** The result view on transformed predictions                       *)
(* ================================================================== *)

Module ViewFacts.
Import JS App AppVocabulary AppFacts PredictionResultsView.
Local Open Scope js_scope.

(** On binary64, a number above 0.7 is above 0.5. *)
Lemma above_07_above_05 x : (0.7 <? x)%float = true -> (0.5 <? x)%float = true.
Proof.
  rewrite !ltb_spec.
  replace (Prim2SF 0.7%float) with (S754_finite false 6305039478318694%positive (-53)%Z)
    by (vm_compute; reflexivity).
  replace (Prim2SF 0.5%float) with (S754_finite false 4503599627370496%positive (-53)%Z)
    by (vm_compute; reflexivity).
  destruct (Prim2SF x) as [s|s| |s m e]; unfold SFltb, SFcompare; try discriminate.
  - destruct s; auto.
  - destruct s; try discriminate.
    destruct (Z.compare (-53)%Z e) eqn:C; try discriminate; auto.
    fold (Pos.compare 6305039478318694%positive m).
    fold (Pos.compare 4503599627370496%positive m).
    destruct (Pos.compare_spec 6305039478318694%positive m) as [| L |]; try discriminate.
    intros _. assert (H : (4503599627370496 < m)%positive) by lia.
    apply Pos.compare_lt_iff in H. now rewrite H.
Qed.

(** The view's test on a probability, given the transform's. *)
Lemma high_after_detected E v d :
  gt E v 0.5 = Normal d ->
  exists h, gt E v 0.7 = Normal h /\ (h = true -> d = true).
Proof.
  unfold gt. destruct (ToNumber E v) as [x|e]; cbn [bind]; [|discriminate].
  intros H. injection H as <-. eexists. split; [reflexivity|].
  apply above_07_above_05.
Qed.

Lemma transformed_groups_flagged E result p :
  transformedPrediction E result = Normal p ->
  Forall (fun g => gt E (Group.probability g) 0.5 = Normal (Group.detected g))
         (functionalGroups p).
Proof.
  intros H. apply transformedPrediction_inv in H.
  destruct H as (entries & _ & _ & _ & _ & _ & Hg & _).
  apply Array_map_Forall2 in Hg.
  induction Hg as [|entry g l l' Hr _ IH]; constructor; [|exact IH].
  apply groupRecord_inv in Hr. destruct Hr as (_ & Hp & _ & Hd).
  now rewrite Hp.
Qed.

Lemma filter_high gs :
  forall E,
  Forall (fun g => gt E (Group.probability g) 0.5 = Normal (Group.detected g)) gs ->
  exists hs, highConfidenceGroups E gs = Normal hs /\
             (forall g, In g hs -> In g gs /\ Group.detected g = true) /\
             (List.length hs <= List.length (detectedGroupsShown gs))%nat.
Proof.
  intros E F. unfold highConfidenceGroups, detectedGroupsShown.
  induction F as [|g gs Hg _ (hs & Hh & Hin & Hlen)].
  - exists []. split; [reflexivity|]. split; [intros x [] | cbn; lia].
  - destruct (high_after_detected _ _ Hg) as (h & Hhigh & Himp).
    cbn [Array_filter filter]. rewrite Hhigh, Hh. cbn [bind].
    destruct h.
    + rewrite (Himp eq_refl). exists (g :: hs).
      split; [reflexivity|]. split; [|cbn; lia].
      intros g' [<-|Hg']; [split; [now left | now apply Himp]|].
      destruct (Hin g' Hg') as [I D]. split; [now right | exact D].
    + exists hs. split; [reflexivity|]. split.
      * intros g' Hg'. destruct (Hin g' Hg') as [I D]. split; [now right | exact D].
      * destruct (Group.detected g); cbn; lia.
Qed.

Lemma replace_underscore_length s :
  List.length (replace_underscore s) = List.length s.
Proof.
  induction s as [|c s IH]; [reflexivity|]. cbn [replace_underscore].
  destruct (c =? 95)%N; cbn; [reflexivity | now rewrite IH].
Qed.

End ViewFacts.

Import PredictionResultsView ViewFacts.

(** X18: on a prediction produced by the transform, the view's list of
    high-confidence groups (probability above 0.7) is computed without
    error, contains only groups of the prediction that are flagged as
    detected, and is no longer than the list of detected groups shown
    beside it. *)
Theorem high_confidence_groups_are_detected (E : Engine) (result : value)
        (p : Prediction) :
  transformedPrediction E result = Normal p ->
  exists hs,
    highConfidenceGroups E (functionalGroups p) = Normal hs /\
    (forall g, In g hs -> In g (functionalGroups p) /\ Group.detected g = true) /\
    (List.length hs <= List.length (detectedGroupsShown (functionalGroups p)))%nat.
Proof.
  intros H. apply filter_high. now apply transformed_groups_flagged with (result := result).
Qed.

(** The mapping [{alcohol: 0.9, amine: 0.3}]: one group above 0.7. *)
Lemma high_confidence_groups_are_detected_witness :
  nullish response_example = false /\
  forall E, exists hs,
    highConfidenceGroups E (map (group_of E) groups_example) = Normal hs /\
    map Group.name hs = [js "Alcohol"] /\
    (forall g, In g hs -> Group.detected g = true).
Proof.
  split; [reflexivity|]. intros E.
  assert (T : transformedPrediction E response_example
              = Normal (built response_example (map (group_of E) groups_example)))
    by reflexivity.
  destruct (@high_confidence_groups_are_detected E _ _ T) as (hs & Hh & Hd & _).
  exists hs. split; [exact Hh|]. split.
  - cbv in Hh. injection Hh as <-. reflexivity.
  - intros g Hg. now apply Hd.
Defined.

(** X19: the display name of a group replaces the first underscore only:
    what precedes it and everything after it, further underscores
    included, is kept; a name without underscore is shown as it is; the
    length never changes. *)
Theorem display_name_replaces_first_underscore (a b : jsstring) :
  (~ In 95%N a -> replace_underscore (a ++ 95%N :: b) = a ++ 32%N :: b) /\
  (~ In 95%N a -> replace_underscore a = a) /\
  List.length (replace_underscore a) = List.length a.
Proof.
  split; [|split; [|apply replace_underscore_length]].
  - induction a as [|c a IH]; intros N; cbn [app replace_underscore].
    + reflexivity.
    + destruct (N.eqb_spec c 95) as [->|D]; [exfalso; apply N; now left|].
      rewrite IH; [reflexivity|]. intros H. apply N. now right.
  - induction a as [|c a IH]; intros N; cbn [replace_underscore]; [reflexivity|].
    destruct (N.eqb_spec c 95) as [->|D]; [exfalso; apply N; now left|].
    rewrite IH; [reflexivity|]. intros H. apply N. now right.
Qed.

Lemma display_name_replaces_first_underscore_witness :
  replace_underscore (js "Carboxylic_acid_ester") = js "Carboxylic acid_ester" /\
  replace_underscore (js "Alcohol") = js "Alcohol".
Proof.
  split.
  - apply (proj1 (display_name_replaces_first_underscore
                    (js "Carboxylic") (js "acid_ester"))).
    intros H. vm_compute in H. intuition discriminate.
  - apply (proj1 (proj2 (display_name_replaces_first_underscore (js "Alcohol") []))).
    intros H. vm_compute in H. intuition discriminate.
Defined.

(** X20: the colour and the badge of a confidence always go together --
    green with High, yellow with Medium, red with Low -- and fail together
    if the value cannot be converted.  A number gets High exactly from 0.9
    on; a missing ([undefined]) confidence gets Low in red. *)
Theorem confidence_colour_matches_badge (E : Engine) (confidence : value) :
  match getConfidenceColor E confidence, getConfidenceBadge E confidence with
  | Normal colour, Normal badge =>
      (colour = js "text-green-400" /\ badge = (js "High", js "bg-green-500")) \/
      (colour = js "text-yellow-400" /\ badge = (js "Medium", js "bg-yellow-500")) \/
      (colour = js "text-red-400" /\ badge = (js "Low", js "bg-red-500"))
  | Throw e, Throw e' => e = e'
  | _, _ => False
  end /\
  (forall x, getConfidenceBadge E (VNum x) = Normal (js "High", js "bg-green-500")
             <-> (0.9 <=? x)%float = true) /\
  getConfidenceColor E VUndefined = Normal (js "text-red-400") /\
  getConfidenceBadge E VUndefined = Normal (js "Low", js "bg-red-500").
Proof.
  split; [|split; [|split; reflexivity]].
  - unfold getConfidenceColor, getConfidenceBadge, ge.
    destruct (ToNumber E confidence) as [x|e]; cbn [bind]; [|reflexivity].
    destruct (0.9 <=? x)%float; [now left|].
    destruct (0.7 <=? x)%float; [right; now left | right; now right].
  - intros x. unfold getConfidenceBadge, ge, ToNumber. cbn [bind].
    destruct (0.9 <=? x)%float; [split; reflexivity|].
    destruct (0.7 <=? x)%float; split; intros H; try discriminate H;
      vm_compute in H; discriminate H.
Qed.
